(** * CardioPredict: the assessment form and its session history

    A shallow embedding of the two React components that carry the
    behaviour of the application:

    - [CardiovascularForm] (the zod schema [formSchema], the change
      handlers of the numeric inputs, [onSubmit] and what the component
      renders below the form), and
    - [PredictionResult] and [PredictionHistory] ([loadHistory],
      [clearHistory], [getRiskBadge]).

    The browser is a record of the state the components read and write:
    the react-hook-form values and errors, the two [useState] cells of the
    form, the [cardio_history] key of [sessionStorage], the state of the
    history panel, and the toasts and requests issued so far.  Code that
    can throw runs in a small state-and-exception monad, so that
    [try]/[catch]/[finally] of [onSubmit] is written as in the source. *)

From Stdlib Require Import ZArith List String Ascii Bool Lia.
From Stdlib Require Import Floats DecimalString.
From Stdlib Require DecimalPos.
Import ListNotations.

Set Warnings "-inexact-float".

Local Open Scope string_scope.
Local Open Scope Z_scope.

(** ** The engine: numbers and strings *)

Module JS.

(** [n.toString()] for an integer [n]: its decimal digits, with a minus
    sign when negative.  (JavaScript prints an integer this way as long as
    it is below [2^53] in magnitude; the integers printed through this
    function are clock readings, HTTP status codes and form fields.) *)
Definition Number_toString (n : Z) : string :=
  NilZero.string_of_int (Z.to_int n).

(** White space skipped by [parseInt] (the ASCII part of StrWhiteSpaceChar). *)
Definition is_space (c : ascii) : bool :=
  let n := N_of_ascii c in
  (N.eqb n 32 || (N.leb 9 n && N.leb n 13))%bool.

Fixpoint trimStart (s : string) : string :=
  match s with
  | String c s' => if is_space c then trimStart s' else s
  | EmptyString => s
  end.

(** The value of [c] as a digit in the given radix, if it is one. *)
Definition digit_of (radix : Z) (c : ascii) : option Z :=
  let n := Z.of_N (N_of_ascii c) in
  let d :=
    if (48 <=? n) && (n <=? 57) then Some (n - 48)
    else if (97 <=? n) && (n <=? 122) then Some (n - 87)
    else if (65 <=? n) && (n <=? 90) then Some (n - 55)
    else None in
  match d with
  | Some v => if v <? radix then Some v else None
  | None => None
  end.

(** The longest prefix of [s] made of digits, read in [radix]; [acc] is the
    value read so far, [None] while no digit has been seen. *)
Fixpoint parse_digits (radix : Z) (s : string) (acc : option Z) : option Z :=
  match s with
  | String c s' =>
      match digit_of radix c with
      | Some d =>
          parse_digits radix s'
            (Some (match acc with Some a => a * radix + d | None => d end))
      | None => acc
      end
  | EmptyString => acc
  end.

(** [parseInt(s)] with no radix argument: leading white space, an optional
    sign, an optional [0x] prefix that switches to radix 16, then digits up
    to the first character that is not one.  [None] is [NaN].  The integer
    is kept exact; the rounding to a double that JavaScript applies past
    [2^53] moves no value across a bound of [formSchema]. *)
Definition parseInt (s : string) : option Z :=
  let s1 := trimStart s in
  let '(negative, s2) :=
    match s1 with
    | String "-" r => (true, r)
    | String "+" r => (false, r)
    | _ => (false, s1)
    end in
  let '(radix, s3) :=
    match s2 with
    | String "0" (String "x" r) => (16, r)
    | String "0" (String "X" r) => (16, r)
    | _ => (10, s2)
    end in
  match parse_digits radix s3 None with
  | Some n => Some (if negative then - n else n)
  | None => None
  end.

(** The integer a decimal numeral denotes when read, most significant
    digit first, after the digits that made [acc]. *)
Fixpoint uint_value (d : Decimal.uint) (acc : Z) : Z :=
  match d with
  | Decimal.Nil => acc
  | Decimal.D0 l => uint_value l (acc * 10)
  | Decimal.D1 l => uint_value l (acc * 10 + 1)
  | Decimal.D2 l => uint_value l (acc * 10 + 2)
  | Decimal.D3 l => uint_value l (acc * 10 + 3)
  | Decimal.D4 l => uint_value l (acc * 10 + 4)
  | Decimal.D5 l => uint_value l (acc * 10 + 5)
  | Decimal.D6 l => uint_value l (acc * 10 + 6)
  | Decimal.D7 l => uint_value l (acc * 10 + 7)
  | Decimal.D8 l => uint_value l (acc * 10 + 8)
  | Decimal.D9 l => uint_value l (acc * 10 + 9)
  end.

(** [x || 0] for a number [x]: [NaN] and zero are falsy. *)
Definition or_zero (x : option Z) : Z :=
  match x with
  | Some n => if n =? 0 then 0 else n
  | None => 0
  end.

(** What [Math.round] returns: [NaN], an infinity, or a double whose value
    is an integer (the sign of a zero result, which nothing here observes,
    is dropped). *)
Inductive rounded :=
| RNaN
| RInf (negative : bool)
| RInt (n : Z).

(** [Math.round(x)]: the integer nearest to [x], ties going up.  A finite
    double is [±m·2^e]; for [e < 0] the result is
    [floor (±m·2^e + 1/2) = floor ((±2m + 2^-e) / 2^(1-e))]. *)
Definition Math_round (x : float) : rounded :=
  match Prim2SF x with
  | S754_nan => RNaN
  | S754_infinity s => RInf s
  | S754_zero _ => RInt 0
  | S754_finite s m e =>
      let v := if s then Z.neg m else Z.pos m in
      if 0 <=? e then RInt (v * 2 ^ e)
      else RInt ((2 * v + 2 ^ (- e)) / 2 ^ (1 - e))
  end.

(** [r > k] for an integer literal [k]. *)
Definition rounded_gt (r : rounded) (k : Z) : bool :=
  match r with
  | RNaN => false
  | RInf negative => negb negative
  | RInt n => k <? n
  end.

(** The double nearest to an integer (round to nearest, ties to even). *)
Definition float_of_Z (n : Z) : float :=
  SF2Prim (binary_normalize prec emax n 0 false).

(** Trailing zeros of a digit string removed. *)
Fixpoint strip_zeros (s : string) : string :=
  match s with
  | String c r =>
      match strip_zeros r with
      | EmptyString => if Ascii.eqb c "0" then EmptyString else String c EmptyString
      | r' => String c r'
      end
  | EmptyString => EmptyString
  end.

(** The shortest decimal [s·10^(nd-k)] that reads back as the double of
    value [a], trying [k = 1, 2, ...] significant digits; of two that do,
    the one nearer to [a].  [nd] is the number of digits of [a]. *)
Fixpoint shortest_decimal (fuel : nat) (k a nd : Z) : Z :=
  match fuel with
  | O => a
  | S fuel' =>
      let scale := 10 ^ (nd - k) in
      let lo := a / scale * scale in
      let hi := lo + scale in
      let reads_back c := (float_of_Z c =? float_of_Z a)%float in
      match reads_back lo, reads_back hi with
      | true, true =>
          if a - lo <? hi - a then lo
          else if hi - a <? a - lo then hi
          else if Z.even (lo / scale) then lo else hi
      | true, false => lo
      | false, true => hi
      | false, false => shortest_decimal fuel' (k + 1) a nd
      end
  end.

(** The digits Number::toString prints for the integer-valued double [a]:
    the shortest decimal that reads back as [a]. *)
Definition shortest_digits (a : Z) : string :=
  let nd := Z.of_nat (String.length (Number_toString a)) in
  Number_toString (shortest_decimal 17 1 a nd).

(** Exponent notation [d.ddde+x] of a digit string. *)
Definition exponential (c : string) : string :=
  let x := Number_toString (Z.of_nat (String.length c) - 1) in
  match strip_zeros c with
  | String d EmptyString => String d ("e+" ++ x)
  | String d ds => String d ("." ++ ds ++ "e+" ++ x)
  | EmptyString => "0"
  end.

(** [`${r}`] for a result of [Math.round]: Number::toString, which writes
    an integer-valued double in plain decimal below [10^21] and in exponent
    notation from there on. *)
Definition rounded_toString (r : rounded) : string :=
  match r with
  | RNaN => "NaN"
  | RInf negative => if negative then "-Infinity" else "Infinity"
  | RInt n =>
      let c := shortest_digits (Z.abs n) in
      (if n <? 0 then "-" else "") ++
      (if Z.abs n <? 10 ^ 21 then c else exponential c)
  end.

(** A number as JSON carries it: finite, and with an unsigned zero (what
    [JSON.stringify] writes and [JSON.parse] reads back unchanged). *)
Definition is_JSON_number (x : float) : bool :=
  is_finite x && negb (is_zero x && get_sign x).

Record JSONNumber := {
  value :> float;
  value_is_JSON : is_JSON_number value = true
}.

(** [ToNumber] of a property read: a missing property reads as
    [undefined], whose number is [NaN]. *)
Definition ToNumber (v : option JSONNumber) : float :=
  match v with
  | Some x => value x
  | None => nan
  end.

(** [v === k] for a property read [v] and a numeric literal [k]. *)
Definition strict_equal (v : option JSONNumber) (k : float) : bool :=
  match v with
  | Some x => (value x =? k)%float
  | None => false
  end.

(** A JavaScript object whose properties hold numbers, as the list of its
    properties in insertion order. *)
Definition object := list (string * JSONNumber).

(** The property read [o.key]. *)
Fixpoint get (o : object) (key : string) : option JSONNumber :=
  match o with
  | (k, v) :: o' => if String.eqb k key then Some v else get o' key
  | [] => None
  end.

(** What a [throw] carries.  [TypeError] and [SyntaxError] are instances
    of [Error]; [NotAnError] stands for any other thrown value. *)
Inductive Thrown :=
| Error (message : string)
| NotAnError.

End JS.

Import JS.

Notation "'num' x" := (Build_JSONNumber x%float eq_refl)
  (at level 9, x at level 9, only parsing).

(** ** The form: fields, values and [formSchema] *)

Module Field.

(** The five inputs of [type="number"]. *)
Inductive number := age | height | weight | ap_hi | ap_lo.

(** The six [Select] fields. *)
Inductive enum := gender | cholesterol | gluc | smoke | alco | active.

Inductive t :=
| Number (f : number)
| Enum (f : enum).

(** The keys of [formSchema], in the order the schema lists them. *)
Definition all : list t :=
  [ Number age; Enum gender; Number height; Number weight;
    Number ap_hi; Number ap_lo; Enum cholesterol; Enum gluc;
    Enum smoke; Enum alco; Enum active ].

Definition eq_dec (f g : t) : {f = g} + {f <> g}.
Proof. repeat decide equality. Defined.

End Field.

Module FormValues.

(** The values react-hook-form holds; [None] is [undefined], a field that
    has no default and has not been set.  A numeric field is only ever
    written by its change handler, which stores a result of [parseInt]:
    an integer. *)
Record t := {
  age : option Z;
  gender : option string;
  height : option Z;
  weight : option Z;
  ap_hi : option Z;
  ap_lo : option Z;
  cholesterol : option string;
  gluc : option string;
  smoke : option string;
  alco : option string;
  active : option string
}.

(** [defaultValues] of [useForm]: the selects have one, the numeric inputs
    have none. *)
Definition defaultValues : t :=
  {| age := None; gender := Some "1"; height := None; weight := None;
     ap_hi := None; ap_lo := None; cholesterol := Some "1";
     gluc := Some "1"; smoke := Some "0"; alco := Some "0";
     active := Some "1" |}.

Definition get_number (f : Field.number) (v : t) : option Z :=
  match f with
  | Field.age => age v
  | Field.height => height v
  | Field.weight => weight v
  | Field.ap_hi => ap_hi v
  | Field.ap_lo => ap_lo v
  end.

Definition get_enum (f : Field.enum) (v : t) : option string :=
  match f with
  | Field.gender => gender v
  | Field.cholesterol => cholesterol v
  | Field.gluc => gluc v
  | Field.smoke => smoke v
  | Field.alco => alco v
  | Field.active => active v
  end.

Definition set_number (f : Field.number) (x : option Z) (v : t) : t :=
  match f with
  | Field.age =>
      {| age := x; gender := gender v; height := height v;
         weight := weight v; ap_hi := ap_hi v; ap_lo := ap_lo v;
         cholesterol := cholesterol v; gluc := gluc v; smoke := smoke v;
         alco := alco v; active := active v |}
  | Field.height =>
      {| age := age v; gender := gender v; height := x;
         weight := weight v; ap_hi := ap_hi v; ap_lo := ap_lo v;
         cholesterol := cholesterol v; gluc := gluc v; smoke := smoke v;
         alco := alco v; active := active v |}
  | Field.weight =>
      {| age := age v; gender := gender v; height := height v;
         weight := x; ap_hi := ap_hi v; ap_lo := ap_lo v;
         cholesterol := cholesterol v; gluc := gluc v; smoke := smoke v;
         alco := alco v; active := active v |}
  | Field.ap_hi =>
      {| age := age v; gender := gender v; height := height v;
         weight := weight v; ap_hi := x; ap_lo := ap_lo v;
         cholesterol := cholesterol v; gluc := gluc v; smoke := smoke v;
         alco := alco v; active := active v |}
  | Field.ap_lo =>
      {| age := age v; gender := gender v; height := height v;
         weight := weight v; ap_hi := ap_hi v; ap_lo := x;
         cholesterol := cholesterol v; gluc := gluc v; smoke := smoke v;
         alco := alco v; active := active v |}
  end.

Definition set_enum (f : Field.enum) (x : option string) (v : t) : t :=
  match f with
  | Field.gender =>
      {| age := age v; gender := x; height := height v;
         weight := weight v; ap_hi := ap_hi v; ap_lo := ap_lo v;
         cholesterol := cholesterol v; gluc := gluc v; smoke := smoke v;
         alco := alco v; active := active v |}
  | Field.cholesterol =>
      {| age := age v; gender := gender v; height := height v;
         weight := weight v; ap_hi := ap_hi v; ap_lo := ap_lo v;
         cholesterol := x; gluc := gluc v; smoke := smoke v;
         alco := alco v; active := active v |}
  | Field.gluc =>
      {| age := age v; gender := gender v; height := height v;
         weight := weight v; ap_hi := ap_hi v; ap_lo := ap_lo v;
         cholesterol := cholesterol v; gluc := x; smoke := smoke v;
         alco := alco v; active := active v |}
  | Field.smoke =>
      {| age := age v; gender := gender v; height := height v;
         weight := weight v; ap_hi := ap_hi v; ap_lo := ap_lo v;
         cholesterol := cholesterol v; gluc := gluc v; smoke := x;
         alco := alco v; active := active v |}
  | Field.alco =>
      {| age := age v; gender := gender v; height := height v;
         weight := weight v; ap_hi := ap_hi v; ap_lo := ap_lo v;
         cholesterol := cholesterol v; gluc := gluc v; smoke := smoke v;
         alco := x; active := active v |}
  | Field.active =>
      {| age := age v; gender := gender v; height := height v;
         weight := weight v; ap_hi := ap_hi v; ap_lo := ap_lo v;
         cholesterol := cholesterol v; gluc := gluc v; smoke := smoke v;
         alco := alco v; active := x |}
  end.

End FormValues.

Module FormData.

(** [z.infer<typeof formSchema>]: what [onSubmit] receives. *)
Record t := {
  age : Z;
  gender : string;
  height : Z;
  weight : Z;
  ap_hi : Z;
  ap_lo : Z;
  cholesterol : string;
  gluc : string;
  smoke : string;
  alco : string;
  active : string
}.

End FormData.

(** The content of the form that holds exactly the given data. *)
Definition values_of (d : FormData.t) : FormValues.t :=
  {| FormValues.age := Some (FormData.age d);
     FormValues.gender := Some (FormData.gender d);
     FormValues.height := Some (FormData.height d);
     FormValues.weight := Some (FormData.weight d);
     FormValues.ap_hi := Some (FormData.ap_hi d);
     FormValues.ap_lo := Some (FormData.ap_lo d);
     FormValues.cholesterol := Some (FormData.cholesterol d);
     FormValues.gluc := Some (FormData.gluc d);
     FormValues.smoke := Some (FormData.smoke d);
     FormValues.alco := Some (FormData.alco d);
     FormValues.active := Some (FormData.active d) |}.

(** *** zod *)

(** [z.number().min(min, min_message).max(max, max_message)]. *)
Record NumberSchema := {
  min : Z;
  min_message : string;
  max : Z;
  max_message : string
}.

(** [z.enum(options, { required_error })]. *)
Record EnumSchema := {
  options : list string;
  required_error : string
}.

Module formSchema.

Definition number (f : Field.number) : NumberSchema :=
  match f with
  | Field.age =>
      {| min := 1; min_message := "Age must be at least 1 day";
         max := 50000; max_message := "Age seems unrealistic" |}
  | Field.height =>
      {| min := 50; min_message := "Height must be at least 50 cm";
         max := 250; max_message := "Height must be less than 250 cm" |}
  | Field.weight =>
      {| min := 10; min_message := "Weight must be at least 10 kg";
         max := 300; max_message := "Weight must be less than 300 kg" |}
  | Field.ap_hi =>
      {| min := 70; min_message := "Systolic pressure must be at least 70";
         max := 250; max_message := "Systolic pressure seems too high" |}
  | Field.ap_lo =>
      {| min := 40; min_message := "Diastolic pressure must be at least 40";
         max := 150; max_message := "Diastolic pressure seems too high" |}
  end.

Definition enum (f : Field.enum) : EnumSchema :=
  match f with
  | Field.gender =>
      {| options := ["1"; "2"]; required_error := "Please select gender" |}
  | Field.cholesterol =>
      {| options := ["1"; "2"; "3"];
         required_error := "Please select cholesterol level" |}
  | Field.gluc =>
      {| options := ["1"; "2"; "3"];
         required_error := "Please select glucose level" |}
  | Field.smoke =>
      {| options := ["0"; "1"];
         required_error := "Please select smoking status" |}
  | Field.alco =>
      {| options := ["0"; "1"];
         required_error := "Please select alcohol consumption" |}
  | Field.active =>
      {| options := ["0"; "1"];
         required_error := "Please select physical activity level" |}
  end.

End formSchema.

(** zod on a number: [undefined] is an [invalid_type] issue, whose default
    message is ["Required"]; [min] is violated by [x < min] and [max] by
    [x > max], so both bounds are inclusive.  The resolver keeps the first
    issue of a field. *)
Definition parse_number (c : NumberSchema) (x : option Z) : string + Z :=
  match x with
  | None => inl "Required"
  | Some n =>
      if n <? min c then inl (min_message c)
      else if n >? max c then inl (max_message c)
      else inr n
  end.

Definition member (s : string) (l : list string) : bool :=
  existsb (String.eqb s) l.

(** ['1' | '2'], zod's rendering of the expected members. *)
Definition joinValues (l : list string) : string :=
  String.concat " | " (map (fun o => "'" ++ o ++ "'") l).

(** zod on an enum: [undefined] gives [required_error]; a string outside
    [options] is an [invalid_enum_value] issue with zod's default message. *)
Definition parse_enum (c : EnumSchema) (x : option string) : string + string :=
  match x with
  | None => inl (required_error c)
  | Some s =>
      if member s (options c) then inr s
      else inl ("Invalid enum value. Expected " ++ joinValues (options c)
                ++ ", received '" ++ s ++ "'")
  end.

(** The errors react-hook-form shows: at most one message per field. *)
Definition FieldErrors := list (Field.t * string).

Definition issue_of {A} (r : string + A) : option string :=
  match r with
  | inl m => Some m
  | inr _ => None
  end.

(** The issue zod raises on field [f], if any. *)
Definition issue (f : Field.t) (v : FormValues.t) : option string :=
  match f with
  | Field.Number n =>
      issue_of (parse_number (formSchema.number n) (FormValues.get_number n v))
  | Field.Enum e =>
      issue_of (parse_enum (formSchema.enum e) (FormValues.get_enum e v))
  end.

(** An object schema parses every key and collects the issues of all. *)
Definition issues (v : FormValues.t) : FieldErrors :=
  flat_map
    (fun f => match issue f v with Some m => [(f, m)] | None => [] end)
    Field.all.

(** [zodResolver(formSchema)]: the parsed data, or the field errors. *)
Definition zodResolver (v : FormValues.t) : FieldErrors + FormData.t :=
  match
    parse_number (formSchema.number Field.age) (FormValues.age v),
    parse_enum (formSchema.enum Field.gender) (FormValues.gender v),
    parse_number (formSchema.number Field.height) (FormValues.height v),
    parse_number (formSchema.number Field.weight) (FormValues.weight v),
    parse_number (formSchema.number Field.ap_hi) (FormValues.ap_hi v),
    parse_number (formSchema.number Field.ap_lo) (FormValues.ap_lo v),
    parse_enum (formSchema.enum Field.cholesterol) (FormValues.cholesterol v),
    parse_enum (formSchema.enum Field.gluc) (FormValues.gluc v),
    parse_enum (formSchema.enum Field.smoke) (FormValues.smoke v),
    parse_enum (formSchema.enum Field.alco) (FormValues.alco v),
    parse_enum (formSchema.enum Field.active) (FormValues.active v)
  with
  | inr age, inr gender, inr height, inr weight, inr ap_hi, inr ap_lo,
    inr cholesterol, inr gluc, inr smoke, inr alco, inr active =>
      inr {| FormData.age := age; FormData.gender := gender;
             FormData.height := height; FormData.weight := weight;
             FormData.ap_hi := ap_hi; FormData.ap_lo := ap_lo;
             FormData.cholesterol := cholesterol; FormData.gluc := gluc;
             FormData.smoke := smoke; FormData.alco := alco;
             FormData.active := active |}
  | _, _, _, _, _, _, _, _, _, _, _ => inl (issues v)
  end.

(** The change handler of a numeric input:
    [field.onChange(parseInt(e.target.value) || 0)]. *)
Definition onChange (f : Field.number) (target_value : string)
    (v : FormValues.t) : FormValues.t :=
  FormValues.set_number f (Some (or_zero (parseInt target_value))) v.

(** [onValueChange={field.onChange}] of a [Select]. *)
Definition onValueChange (f : Field.enum) (value : string)
    (v : FormValues.t) : FormValues.t :=
  FormValues.set_enum f (Some value) v.

(** ** The browser state and the effects of the components *)

Module RequestData.

(** The body sent to the predictor; every field is a result of [parseInt],
    [None] standing for [NaN]. *)
Record t := {
  age : option Z;
  gender : option Z;
  height : option Z;
  weight : option Z;
  ap_hi : option Z;
  ap_lo : option Z;
  cholesterol : option Z;
  gluc : option Z;
  smoke : option Z;
  alco : option Z;
  active : option Z
}.

End RequestData.

(** "Convert form data to match FastAPI expected format". *)
Definition requestData (data : FormData.t) : RequestData.t :=
  {| RequestData.age := parseInt (Number_toString (FormData.age data));
     RequestData.gender := parseInt (FormData.gender data);
     RequestData.height := parseInt (Number_toString (FormData.height data));
     RequestData.weight := parseInt (Number_toString (FormData.weight data));
     RequestData.ap_hi := parseInt (Number_toString (FormData.ap_hi data));
     RequestData.ap_lo := parseInt (Number_toString (FormData.ap_lo data));
     RequestData.cholesterol := parseInt (FormData.cholesterol data);
     RequestData.gluc := parseInt (FormData.gluc data);
     RequestData.smoke := parseInt (FormData.smoke data);
     RequestData.alco := parseInt (FormData.alco data);
     RequestData.active := parseInt (FormData.active data) |}.

(** [interface HistoryEntry]; [data] is the form data [onSubmit] saved and
    [result] the body the predictor answered with. *)
Record HistoryEntry := {
  id : string;
  timestamp : string;
  data : FormData.t;
  result : object
}.

(** A string held under a [sessionStorage] key, seen through [JSON.parse]:
    either the serialization of a history log, which parses back to that
    log, or a text outside the JSON grammar (the empty string is one),
    which [JSON.parse] rejects with a [SyntaxError] whose message is
    [complaint].  Valid JSON of another shape than [HistoryEntry[]] is not
    represented. *)
Inductive Text :=
| Stringified (log : list HistoryEntry)
| Malformed (text complaint : string).

(** Truthiness of a string: only the empty string is falsy. *)
Definition truthy (t : Text) : bool :=
  match t with
  | Stringified _ => true
  | Malformed text _ => negb (String.eqb text "")
  end.

(** What the predictor answers with.  The body either parses as an object
    of numbers or makes [response.json()] reject. *)
Inductive Body :=
| JSONBody (result : object)
| BadBody (complaint : string).

Record Response := {
  status : Z;
  body : Body
}.

(** [response.ok]: the status is in the range 200-299. *)
Definition ok (r : Response) : bool :=
  (200 <=? status r) && (status r <=? 299).

(** How the promise returned by [fetch] settles. *)
Inductive Settled :=
| Rejected (reason : Thrown)
| Fulfilled (response : Response).

(** The clock at the moment an entry is built: [Date.now()] and
    [new Date().toISOString()]. *)
Record Clock := {
  Date_now : Z;
  toISOString : string
}.

(** The argument of [toast]. *)
Record Toast := {
  title : string;
  description : string;
  variant : option string
}.

Record World := {
  values : FormValues.t;          (* react-hook-form: field values *)
  errors : FieldErrors;           (* react-hook-form: formState.errors *)
  prediction : option object;     (* useState<PredictionResponse | null> *)
  isLoading : bool;               (* useState(false) *)
  cardio_history : option Text;   (* sessionStorage, key 'cardio_history' *)
  history : list HistoryEntry;    (* PredictionHistory: useState([]) *)
  listening : bool;               (* handleStorageChange is registered *)
  toasts : list Toast;            (* calls of toast, oldest first *)
  requests : list RequestData.t   (* calls of fetch, oldest first *)
}.

Definition with_form (v : FormValues.t) (e : FieldErrors) (w : World) : World :=
  {| values := v; errors := e; prediction := prediction w;
     isLoading := isLoading w; cardio_history := cardio_history w;
     history := history w; listening := listening w; toasts := toasts w;
     requests := requests w |}.

Definition with_prediction (p : option object) (w : World) : World :=
  {| values := values w; errors := errors w; prediction := p;
     isLoading := isLoading w; cardio_history := cardio_history w;
     history := history w; listening := listening w; toasts := toasts w;
     requests := requests w |}.

Definition with_isLoading (b : bool) (w : World) : World :=
  {| values := values w; errors := errors w; prediction := prediction w;
     isLoading := b; cardio_history := cardio_history w;
     history := history w; listening := listening w; toasts := toasts w;
     requests := requests w |}.

Definition with_cardio_history (t : option Text) (w : World) : World :=
  {| values := values w; errors := errors w; prediction := prediction w;
     isLoading := isLoading w; cardio_history := t;
     history := history w; listening := listening w; toasts := toasts w;
     requests := requests w |}.

Definition with_history (h : list HistoryEntry) (w : World) : World :=
  {| values := values w; errors := errors w; prediction := prediction w;
     isLoading := isLoading w; cardio_history := cardio_history w;
     history := h; listening := listening w; toasts := toasts w;
     requests := requests w |}.

Definition with_listening (b : bool) (w : World) : World :=
  {| values := values w; errors := errors w; prediction := prediction w;
     isLoading := isLoading w; cardio_history := cardio_history w;
     history := history w; listening := b; toasts := toasts w;
     requests := requests w |}.

Definition with_toasts (l : list Toast) (w : World) : World :=
  {| values := values w; errors := errors w; prediction := prediction w;
     isLoading := isLoading w; cardio_history := cardio_history w;
     history := history w; listening := listening w; toasts := l;
     requests := requests w |}.

Definition with_requests (l : list RequestData.t) (w : World) : World :=
  {| values := values w; errors := errors w; prediction := prediction w;
     isLoading := isLoading w; cardio_history := cardio_history w;
     history := history w; listening := listening w; toasts := toasts w;
     requests := l |}.

(** The page as first rendered, over a given content of the storage key. *)
Definition initial (stored : option Text) : World :=
  {| values := FormValues.defaultValues; errors := []; prediction := None;
     isLoading := false; cardio_history := stored; history := [];
     listening := false; toasts := []; requests := [] |}.

(** *** Computations that may throw *)

Definition M (A : Type) : Type := World -> (Thrown + A) * World.

Definition ret {A} (a : A) : M A := fun w => (inr a, w).

Definition bind {A B} (m : M A) (k : A -> M B) : M B :=
  fun w =>
    match m w with
    | (inr a, w') => k a w'
    | (inl e, w') => (inl e, w')
    end.

Definition throw {A} (e : Thrown) : M A := fun w => (inl e, w).

Definition modify (f : World -> World) : M unit := fun w => (inr tt, f w).

Definition read {A} (f : World -> A) : M A := fun w => (inr (f w), w).

Declare Scope js_scope.
Delimit Scope js_scope with js.
Notation "x <- m ;; k" := (bind m (fun x => k))
  (at level 61, m at next level, right associativity) : js_scope.
Notation "m ;; k" := (bind m (fun _ => k))
  (at level 61, right associativity) : js_scope.
Local Open Scope js_scope.

(** [try { body } catch (error) { handler } finally { finalizer }]: the
    finalizer runs on every path, and what is still thrown after the
    handler is thrown again after it. *)
Definition try_catch_finally (body : M unit) (handler : Thrown -> M unit)
    (finalizer : M unit) : M unit :=
  fun w =>
    let '(r, w1) :=
      match body w with
      | (inl error, w') => handler error w'
      | (inr tt, w') => (inr tt, w')
      end in
    match finalizer w1 with
    | (inr tt, w2) => (r, w2)
    | (inl e, w2) => (inl e, w2)
    end.

(** *** [sessionStorage] and [JSON] *)

Definition getItem : M (option Text) := read cardio_history.

Definition setItem (t : Text) : M unit := modify (with_cardio_history (Some t)).

Definition removeItem : M unit := modify (with_cardio_history None).

Definition JSON_parse (t : Text) : M (list HistoryEntry) :=
  match t with
  | Stringified log => ret log
  | Malformed _ complaint => throw (Error complaint)
  end.

Definition JSON_stringify (log : list HistoryEntry) : Text := Stringified log.

(** [stored || fallback] on what [getItem] returned: [null] and the empty
    string are falsy. *)
Definition or_else (stored : option Text) (fallback : Text) : Text :=
  match stored with
  | Some t => if truthy t then t else fallback
  | None => fallback
  end.

(** *** [PredictionHistory] *)

Definition setHistory (h : list HistoryEntry) : M unit := modify (with_history h).

Definition loadHistory : M unit :=
  stored <- getItem ;;
  match stored with
  | Some t =>
      if truthy t then
        log <- JSON_parse t ;;
        setHistory log
      else ret tt
  | None => ret tt
  end.

Definition handleStorageChange : M unit := loadHistory.

(** The body of [useEffect]: load, then subscribe to [storage] events. *)
Definition mount_PredictionHistory : M unit :=
  loadHistory ;;
  modify (with_listening true).

(** [window.dispatchEvent(new Event('storage'))]: the registered listener
    runs at once; what a listener throws is reported by the browser and
    does not reach the dispatcher. *)
Definition dispatchEvent_storage : M unit :=
  fun w =>
    if listening w then (inr tt, snd (handleStorageChange w))
    else (inr tt, w).

Definition clearHistory : M unit :=
  removeItem ;;
  setHistory [].

(** The [Badge] of a history card: its variant and its text. *)
Definition getRiskBadge (prediction probability : option JSONNumber)
    : string * string :=
  let isHighRisk := strict_equal prediction 1 in
  let confidence := Math_round (ToNumber probability * 100) in
  if isHighRisk then
    ("destructive", "High Risk (" ++ rounded_toString confidence ++ "%)")
  else
    ("default", "Low Risk (" ++ rounded_toString confidence ++ "%)").

(** What the panel shows: the placeholder when the log is empty, else one
    card per entry, here its key and its badge. *)
Inductive HistoryPanel :=
| NoHistoryYet
| Cards (count : nat) (cards : list (string * (string * string))).

Definition render_PredictionHistory (w : World) : HistoryPanel :=
  match history w with
  | [] => NoHistoryYet
  | h =>
      Cards (List.length h)
        (map (fun entry =>
                (id entry,
                 getRiskBadge (get (result entry) "prediction")
                              (get (result entry) "probability")))
             h)
  end.

(** *** [PredictionResult] *)

(** The card below the form: the colour class and text of the risk level,
    and the confidence label. *)
Record ResultCard := {
  riskColor : string;
  riskLevel_text : string;
  confidence_text : string
}.

Definition PredictionResult (prediction : object) : ResultCard :=
  let isHighRisk := strict_equal (get prediction "prediction") 1 in
  let confidence := Math_round (ToNumber (get prediction "confidence") * 100) in
  let riskLevel := if isHighRisk then "High" else "Low" in
  let getRiskColor :=
    if isHighRisk then
      if rounded_gt confidence 70 then "text-red-600" else "text-orange-500"
    else
      if rounded_gt confidence 70 then "text-green-600" else "text-blue-500" in
  {| riskColor := getRiskColor;
     riskLevel_text := riskLevel ++ " Risk";
     confidence_text := "Confidence: " ++ rounded_toString confidence ++ "%" |}.

(** *** [CardiovascularForm] *)

Definition setPrediction (p : object) : M unit := modify (with_prediction (Some p)).

Definition setIsLoading (b : bool) : M unit := modify (with_isLoading b).

Definition toast (t : Toast) : M unit :=
  modify (fun w => with_toasts (toasts w ++ [t]) w).

(** [{prediction && <PredictionResult prediction={prediction} />}]. *)
Definition render_result (w : World) : option ResultCard :=
  option_map PredictionResult (prediction w).

(** "Save to session storage for history" and "Trigger history update":
    the read-modify-write of the stored log inside [onSubmit]. *)
Definition newEntry (clock : Clock) (data : FormData.t) (result : object)
    : HistoryEntry :=
  {| id := Number_toString (Date_now clock);
     timestamp := toISOString clock;
     data := data;
     result := result |}.

Definition append (clock : Clock) (data : FormData.t) (result : object)
    : M unit :=
  stored <- getItem ;;
  history <- JSON_parse (or_else stored (Stringified [])) ;;
  let history := newEntry clock data result :: history in
  setItem (JSON_stringify (firstn 10 history)) ;;
  dispatchEvent_storage.

(** The arguments of the two calls of [toast]. *)
Definition success_toast (result : object) : Toast :=
  {| title := "Prediction Complete";
     description :=
       "Risk level: "
       ++ (if strict_equal (get result "prediction") 1 then "High" else "Low")
       ++ " ("
       ++ rounded_toString (Math_round (ToNumber (get result "probability") * 100))
       ++ "% confidence)";
     variant := None |}.

Definition error_toast (error : Thrown) : Toast :=
  {| title := "Error";
     description :=
       match error with
       | Error message => message
       | NotAnError =>
           "Failed to get prediction. Please check if FastAPI server is running."
       end;
     variant := Some "destructive" |}.

(** The [try] block of [onSubmit] from the point where [fetch] settles. *)
Definition try_block (clock : Clock) (data : FormData.t) (settled : Settled)
    : M unit :=
  response <- match settled with
              | Rejected reason => throw reason
              | Fulfilled response => ret response
              end ;;
  (if negb (ok response) then
     throw (Error ("HTTP error! status: " ++ Number_toString (status response)))
   else ret tt) ;;
  result <- match body response with
            | JSONBody result => ret result
            | BadBody complaint => throw (Error complaint)
            end ;;
  setPrediction result ;;
  append clock data result ;;
  toast (success_toast result).

Definition catch_block (error : Thrown) : M unit :=
  toast (error_toast error).

(** [onSubmit] up to [await fetch(...)]: the flag is raised and the request
    is on its way. *)
Definition onSubmit_pending (data : FormData.t) (w : World) : World :=
  let w := with_isLoading true w in
  with_requests (requests w ++ [requestData data]) w.

(** [onSubmit] from the moment the request settles. *)
Definition onSubmit_settled (clock : Clock) (data : FormData.t)
    (settled : Settled) (w : World) : World :=
  snd (try_catch_finally (try_block clock data settled) catch_block
         (setIsLoading false) w).

(** One run of [onSubmit] against a predictor, with no other event
    between the request and its answer. *)
Definition onSubmit (predictor : RequestData.t -> Settled) (clock : Clock)
    (data : FormData.t) (w : World) : World :=
  onSubmit_settled clock data (predictor (requestData data))
    (onSubmit_pending data w).

(** [form.handleSubmit(onSubmit)]: the resolver runs first, and [onSubmit]
    is called only with data that passed it. *)
Definition handleSubmit (predictor : RequestData.t -> Settled) (clock : Clock)
    (w : World) : World :=
  match zodResolver (values w) with
  | inl field_errors => with_form (values w) field_errors w
  | inr data => onSubmit predictor clock data (with_form (values w) [] w)
  end.

(** A change event on a numeric input. *)
Definition change (f : Field.number) (target_value : string) (w : World)
    : World :=
  with_form (onChange f target_value (values w)) (errors w) w.

(** ** Runs and scenarios *)

(** One call of [append]: the clock reading, the data and the result. *)
Definition Call : Type := Clock * FormData.t * object.

Definition entry_of (c : Call) : HistoryEntry :=
  let '(clock, data, result) := c in newEntry clock data result.

Definition clock_of (c : Call) : Z :=
  let '(clock, _, _) := c in Date_now clock.

(** [append] called once per element of [calls], in order. *)
Fixpoint appends (calls : list Call) : M unit :=
  match calls with
  | (clock, data, result) :: rest =>
      append clock data result ;;
      appends rest
  | [] => ret tt
  end.

(** The log a reader of the storage key works on: [stored || '[]'],
    parsed; empty where the parse fails. *)
Definition stored_log (w : World) : list HistoryEntry :=
  match or_else (cardio_history w) (Stringified []) with
  | Stringified log => log
  | Malformed _ _ => []
  end.

(** The world once [append] has written [log] and raised the [storage]
    event: the key holds [log], and the history panel, when it listens,
    has loaded it. *)
Definition appended (log : list HistoryEntry) (w : World) : World :=
  let w' := with_cardio_history (Some (Stringified log)) w in
  if listening w then with_history log w' else w'.

(** What [onSubmit] leaves behind when its [try] block throws [error]
    from world [w']: the error toast, and the flag lowered. *)
Definition failed (error : Thrown) (w' : World) : World :=
  with_isLoading false (with_toasts (toasts w' ++ [error_toast error]) w').

(** The storage of a session with no history: the key is absent, or holds
    the empty string. *)
Definition empty_storage (w : World) : Prop :=
  cardio_history w = None \/
  exists complaint, cardio_history w = Some (Malformed "" complaint).

(** The log a reader of the key starts from is empty: the key is absent,
    or holds the empty string or the empty array. *)
Definition empty_log (w : World) : Prop :=
  or_else (cardio_history w) (Stringified []) = Stringified [].

(** The constraints of the data model, field by field: a number is set and
    within its inclusive range, an enumeration is set to one of its
    members (gender 1 = male, 2 = female; cholesterol and glucose 1, 2, 3;
    smoker, alcohol and physically active 0 = no, 1 = yes). *)
Definition within (lo hi : Z) (x : option Z) : Prop :=
  exists n, x = Some n /\ lo <= n <= hi.

Definition one_of (members : list string) (x : option string) : Prop :=
  exists s, x = Some s /\ In s members.

Definition meets_constraint (f : Field.t) (v : FormValues.t) : Prop :=
  match f with
  | Field.Number Field.age => within 1 50000 (FormValues.age v)
  | Field.Number Field.height => within 50 250 (FormValues.height v)
  | Field.Number Field.weight => within 10 300 (FormValues.weight v)
  | Field.Number Field.ap_hi => within 70 250 (FormValues.ap_hi v)
  | Field.Number Field.ap_lo => within 40 150 (FormValues.ap_lo v)
  | Field.Enum Field.gender => one_of ["1"; "2"] (FormValues.gender v)
  | Field.Enum Field.cholesterol =>
      one_of ["1"; "2"; "3"] (FormValues.cholesterol v)
  | Field.Enum Field.gluc => one_of ["1"; "2"; "3"] (FormValues.gluc v)
  | Field.Enum Field.smoke => one_of ["0"; "1"] (FormValues.smoke v)
  | Field.Enum Field.alco => one_of ["0"; "1"] (FormValues.alco v)
  | Field.Enum Field.active => one_of ["0"; "1"] (FormValues.active v)
  end.

(** The submission of the end-to-end scenarios, typed into the form as
    first rendered: age 9125, height 170, weight 70, pressure 120/80, and
    the defaults of the selects (male, normal, normal, no, no, active). *)
Definition scenario_values : FormValues.t :=
  onChange Field.ap_lo "80"
    (onChange Field.ap_hi "120"
       (onChange Field.weight "70"
          (onChange Field.height "170"
             (onChange Field.age "9125" FormValues.defaultValues)))).

Definition scenario_data : FormData.t :=
  {| FormData.age := 9125; FormData.gender := "1"; FormData.height := 170;
     FormData.weight := 70; FormData.ap_hi := 120; FormData.ap_lo := 80;
     FormData.cholesterol := "1"; FormData.gluc := "1";
     FormData.smoke := "0"; FormData.alco := "0"; FormData.active := "1" |}.

(** The page with both components mounted over an empty session and the
    scenario typed in. *)
Definition scenario_world : World :=
  with_form scenario_values [] (snd (mount_PredictionHistory (initial None))).

(** [{prediction: 0, probability: 0.82}]. *)
Definition scenario_result : object :=
  [("prediction", num 0); ("probability", num 0.82)].

(** A predictor that answers 200 with that result. *)
Definition stub_predictor (_ : RequestData.t) : Settled :=
  Fulfilled {| status := 200; body := JSONBody scenario_result |}.

(** A predictor that answers HTTP 500 with a body that is not JSON. *)
Definition failing_predictor (_ : RequestData.t) : Settled :=
  Fulfilled
    {| status := 500;
       body := BadBody "Unexpected token I in JSON at position 0" |}.

Definition scenario_clock : Clock :=
  {| Date_now := 1700000000000; toISOString := "2023-11-14T22:13:20.000Z" |}.

(** Eleven calls of [append], at clock readings 1 to 11. *)
Definition eleven_calls : list Call :=
  map (fun t => ({| Date_now := t; toISOString := "2023-11-14T22:13:20.000Z" |},
                 scenario_data, scenario_result))
      [1; 2; 3; 4; 5; 6; 7; 8; 9; 10; 11].

(** A storage key that does not hold JSON. *)
Definition corrupted : Text :=
  Malformed "{oops" "Unexpected token o in JSON at position 1".

(** ** The rest of what the components render *)

(** *** [PredictionResult]: icon, progress bar, gauge and interpretation *)

Definition isHighRisk (prediction : object) : bool :=
  strict_equal (get prediction "prediction") 1.

Definition confidence (prediction : object) : rounded :=
  Math_round (ToNumber (get prediction "confidence") * 100).

Definition getRiskIcon (prediction : object) : string * string :=
  if isHighRisk prediction then ("AlertTriangle", "h-8 w-8 text-red-500")
  else ("CheckCircle", "h-8 w-8 text-green-500").

Definition getProgressColor (prediction : object) : string :=
  if isHighRisk prediction then
    if rounded_gt (confidence prediction) 70 then "bg-red-500"
    else "bg-orange-500"
  else
    if rounded_gt (confidence prediction) 70 then "bg-green-500"
    else "bg-blue-500".

(** The [stroke] of the progress circle of the gauge. *)
Definition stroke (prediction : object) : string :=
  if isHighRisk prediction then
    (if rounded_gt (confidence prediction) 70 then "#dc2626" else "#f97316")
  else
    (if rounded_gt (confidence prediction) 70 then "#16a34a" else "#2563eb").

(** The text in the middle of the gauge. *)
Definition gauge_text (prediction : object) : string :=
  rounded_toString (confidence prediction) ++ "%".

(** The [Alert] under the card: its colour classes and its headline. *)
Definition interpretation (prediction : object) : string * string :=
  if isHighRisk prediction then
    ("border-red-200 bg-red-50", "High cardiovascular risk detected.")
  else
    ("border-green-200 bg-green-50", "Low cardiovascular risk indicated.").

(** *** [CardiovascularForm]: the submit button and the selects *)

(** The submit button: [disabled={isLoading}] and its label. *)
Definition submit_button (w : World) : bool * string :=
  (isLoading w,
   if isLoading w then "Analyzing Risk..." else "Assess Cardiovascular Risk").

(** The values of the [SelectItem]s each select offers, in the order they
    are listed. *)
Definition SelectItems (f : Field.enum) : list string :=
  match f with
  | Field.gender => ["2"; "1"]
  | Field.cholesterol => ["1"; "2"; "3"]
  | Field.gluc => ["1"; "2"; "3"]
  | Field.smoke => ["0"; "1"]
  | Field.alco => ["0"; "1"]
  | Field.active => ["0"; "1"]
  end.

(** What the user can do to the fields: type into a numeric input, or pick
    an item of a select. *)
Inductive Edit :=
| Type_in (f : Field.number) (target_value : string)
| Pick (f : Field.enum) (value : string).

(** The item picked is one the select offers. *)
Definition offered (e : Edit) : bool :=
  match e with
  | Type_in _ _ => true
  | Pick f value => member value (SelectItems f)
  end.

Definition edit (v : FormValues.t) (e : Edit) : FormValues.t :=
  match e with
  | Type_in f target_value => onChange f target_value v
  | Pick f value => onValueChange f value v
  end.

(** The content of the form after a series of edits, oldest first, made
    to the form as first rendered. *)
Definition edited (edits : list Edit) : FormValues.t :=
  fold_left edit edits FormValues.defaultValues.

(** Whether some edit typed into the numeric field [f]. *)
Definition typed_into (f : Field.number) (edits : list Edit) : bool :=
  existsb
    (fun e =>
       match e with
       | Type_in g _ => if Field.eq_dec (Field.Number f) (Field.Number g)
                        then true else false
       | Pick _ _ => false
       end)
    edits.

(** *** [PredictionHistory]: the age shown on a card *)

(** [Age: {Math.round(entry.data.age / 365)} years]. *)
Definition card_years (entry : HistoryEntry) : rounded :=
  Math_round (float_of_Z (FormData.age (data entry)) / 365).

(** The rounding of [age / 365] agrees with the integer nearest to the
    exact quotient, for every age from [age] on, [fuel] of them. *)
Fixpoint years_checked (fuel : nat) (age : Z) : bool :=
  match fuel with
  | O => true
  | S fuel' =>
      match Math_round (float_of_Z age / 365) with
      | RInt n => n =? (2 * age + 365) / 730
      | _ => false
      end
      && years_checked fuel' (age + 1)
  end.

(** *** Outcomes of a request *)

(** The result a settled request hands to the rest of [onSubmit], or what
    the [try] block throws before it has one. *)
Definition answer (settled : Settled) : Thrown + object :=
  match settled with
  | Rejected reason => inl reason
  | Fulfilled response =>
      if ok response then
        match body response with
        | JSONBody result => inr result
        | BadBody complaint => inl (Error complaint)
        end
      else
        inl (Error ("HTTP error! status: "
                    ++ Number_toString (status response)))
  end.

(** The history panel shows what the storage holds. *)
Definition in_sync (w : World) : Prop :=
  history w = stored_log w.

(** What happens on the page once it is up: the form, holding some
    content, is submitted against a predictor, or the history is
    cleared. *)
Inductive Action :=
| Submit (v : FormValues.t) (predictor : RequestData.t -> Settled)
         (clock : Clock)
| Clear.

Definition act (w : World) (a : Action) : World :=
  match a with
  | Submit v predictor clock =>
      handleSubmit predictor clock (with_form v (errors w) w)
  | Clear => snd (clearHistory w)
  end.

(** The page after both components have mounted over a given content of
    the storage key and a series of actions, oldest first. *)
Definition session (stored : option Text) (actions : list Action) : World :=
  fold_left act actions (snd (mount_PredictionHistory (initial stored))).

(** A content of the key the history panel can mount over, holding at
    most ten entries. *)
Definition readable (stored : option Text) : Prop :=
  match stored with
  | None => True
  | Some (Stringified log) => (List.length log <= 10)%nat
  | Some (Malformed text _) => text = ""
  end.

(** What holds of the page between two actions. *)
Definition at_rest (w : World) : Prop :=
  in_sync w /\
  (List.length (stored_log w) <= 10)%nat /\
  listening w = true /\
  isLoading w = false /\
  List.length (toasts w) = List.length (requests w).

(** A session that fills the history past its bound, fails once, and
    clears in between. *)
Definition busy_session : list Action :=
  map (fun c : Call =>
         let '(clock, _, _) := c in
         Submit scenario_values stub_predictor clock) eleven_calls
  ++ [ Submit scenario_values failing_predictor scenario_clock;
       Submit FormValues.defaultValues stub_predictor scenario_clock;
       Clear;
       Submit scenario_values stub_predictor scenario_clock ].

(** * Properties *)

(** ** Numbers and their decimal strings *)

Lemma of_uint_acc_value (d : Decimal.uint) :
  forall acc, Z.pos (Pos.of_uint_acc d acc) = uint_value d (Z.pos acc).
Proof.
  induction d; intros acc; cbn [Pos.of_uint_acc uint_value]; try reflexivity;
    rewrite IHd; f_equal; lia.
Qed.

Lemma of_uint_value (d : Decimal.uint) :
  Z.of_N (Pos.of_uint d) = uint_value d 0.
Proof.
  induction d; cbn [Pos.of_uint uint_value]; try reflexivity; try assumption;
    cbn [Z.of_N]; rewrite of_uint_acc_value; reflexivity.
Qed.

(** [parse_digits] reads a string of decimal digits to the end. *)
Lemma parse_digits_uint (d : Decimal.uint) :
  forall acc,
    parse_digits 10 (NilEmpty.string_of_uint d) acc
    = match d with
      | Decimal.Nil => acc
      | _ => Some (uint_value d (match acc with Some a => a | None => 0 end))
      end.
Proof.
  induction d; intros acc; try reflexivity;
    cbn [NilEmpty.string_of_uint parse_digits];
    match goal with
    | |- context [digit_of 10 ?c] =>
        let v := eval vm_compute in (digit_of 10 c) in
        change (digit_of 10 c) with v
    end;
    cbv beta iota; rewrite IHd; destruct d, acc; cbn [uint_value];
    first [f_equal; lia | do 2 f_equal; lia].
Qed.

Lemma parseInt_digits (d : Decimal.uint) :
  d <> Decimal.Nil ->
  parseInt (NilEmpty.string_of_uint d) = Some (uint_value d 0) /\
  parseInt (String "-" (NilEmpty.string_of_uint d)) = Some (- uint_value d 0).
Proof.
  intros Hd.
  assert (H : parse_digits 10 (NilEmpty.string_of_uint d) None
              = Some (uint_value d 0)).
  { rewrite parse_digits_uint. now destruct d. }
  revert H. generalize (uint_value d 0). intros n H.
  destruct d as [|l|l|l|l|l|l|l|l|l|l]; [contradiction | destruct l | ..];
    cbn [NilEmpty.string_of_uint] in H |- *;
    repeat match goal with
    | |- context [NilEmpty.string_of_uint ?l] =>
        generalize dependent (NilEmpty.string_of_uint l); intros
    end;
    (split; unfold parseInt; cbn -[parse_digits Z.opp]; rewrite H; reflexivity).
Qed.

(** [parseInt(n.toString())] is [n]: the conversion of the numeric fields
    in [requestData] changes nothing. *)
Lemma parseInt_Number_toString (n : Z) : parseInt (Number_toString n) = Some n.
Proof.
  unfold Number_toString.
  destruct n as [|p|p]; [reflexivity | |];
    cbn [Z.to_int NilZero.string_of_int NilZero.string_of_uint];
    pose proof (DecimalPos.Unsigned.to_uint_nonnil p) as Hnil;
    destruct (parseInt_digits (Pos.to_uint p) Hnil) as [Hpos Hneg];
    rewrite <- of_uint_value, DecimalPos.Unsigned.of_to in Hpos, Hneg;
    destruct (Pos.to_uint p); first [contradiction | assumption].
Qed.

Lemma Number_toString_inj (n m : Z) :
  Number_toString n = Number_toString m -> n = m.
Proof.
  intros H. apply (f_equal parseInt) in H.
  rewrite !parseInt_Number_toString in H. now injection H.
Qed.

(** ** Validation *)

Lemma member_In (s : string) (l : list string) :
  member s l = true <-> In s l.
Proof.
  unfold member. rewrite existsb_exists. split.
  - intros [x [Hin Heq]]. apply String.eqb_eq in Heq. now subst.
  - intros Hin. exists s. split; [assumption | apply String.eqb_refl].
Qed.

Lemma parse_number_accepts (c : NumberSchema) (x : option Z) :
  issue_of (parse_number c x) = None <-> within (min c) (max c) x.
Proof.
  unfold parse_number, within. destruct x as [n|]; simpl.
  - destruct (Z.ltb_spec n (min c)); simpl.
    + split; [discriminate | intros [m [[= <-] ?]]; lia].
    + rewrite Z.gtb_ltb. destruct (Z.ltb_spec (max c) n); simpl.
      * split; [discriminate | intros [m [[= <-] ?]]; lia].
      * split; [intros _; exists n; split; [reflexivity | lia] | reflexivity].
  - split; [discriminate | intros [m [[=] _]]].
Qed.

Lemma parse_enum_accepts (c : EnumSchema) (x : option string) :
  issue_of (parse_enum c x) = None <-> one_of (options c) x.
Proof.
  unfold parse_enum, one_of. destruct x as [s|]; simpl.
  - destruct (member s (options c)) eqn:Hm; simpl.
    + apply member_In in Hm. split; [intros _; now exists s | reflexivity].
    + split; [discriminate |].
      intros [s' [[= <-] Hin]]. apply member_In in Hin. congruence.
  - split; [discriminate | intros [s [[=] _]]].
Qed.

Lemma parse_number_inr (c : NumberSchema) (x : option Z) (n : Z) :
  parse_number c x = inr n -> x = Some n.
Proof.
  unfold parse_number. destruct x as [k|]; [| discriminate].
  destruct (k <? min c); [discriminate |].
  destruct (k >? max c); [discriminate |]. now intros [= ->].
Qed.

Lemma parse_enum_inr (c : EnumSchema) (x : option string) (s : string) :
  parse_enum c x = inr s -> x = Some s.
Proof.
  unfold parse_enum. destruct x as [k|]; [| discriminate].
  destruct (member k (options c)); [| discriminate]. now intros [= ->].
Qed.

Lemma NoDup_all_fields : NoDup Field.all.
Proof.
  unfold Field.all.
  repeat (constructor;
          [simpl; intros H; repeat destruct H as [H|H];
           try discriminate; contradiction |]).
  constructor.
Qed.

Lemma get_set_number (f : Field.number) (x : option Z) (v : FormValues.t) :
  FormValues.get_number f (FormValues.set_number f x v) = x.
Proof. destruct f; reflexivity. Qed.

Lemma issue_number_set (f : Field.number) (x : option Z) (v : FormValues.t) :
  issue (Field.Number f) (FormValues.set_number f x v)
  = issue_of (parse_number (formSchema.number f) x).
Proof. unfold issue. now rewrite get_set_number. Qed.

Section Resolver.

(** The content of the form the resolver is run on. *)
Variable v : FormValues.t.

(** zod raises no issue on a field exactly when the field meets the
    constraint the data model states for it. *)
Lemma issue_None_iff (f : Field.t) :
  issue f v = None <-> meets_constraint f v.
Proof.
  destruct f as [[]|[]]; simpl;
    first [apply parse_number_accepts | apply parse_enum_accepts].
Qed.

Lemma In_issues (f : Field.t) (m : string) :
  In (f, m) (issues v) <-> issue f v = Some m.
Proof.
  unfold issues. rewrite in_flat_map. split.
  - intros [g [_ Hin]]. destruct (issue g v) eqn:Hg; simpl in Hin.
    + destruct Hin as [[= <- <-]|[]]. assumption.
    + contradiction.
  - intros H. exists f. split.
    + destruct f as [[]|[]]; simpl; tauto.
    + rewrite H. now left.
Qed.

Lemma fields_of_issues :
  map fst (issues v)
  = filter (fun f => match issue f v with Some _ => true | None => false end)
      Field.all.
Proof.
  unfold issues. induction Field.all as [|f l IH]; simpl; [reflexivity|].
  rewrite map_app, IH. destruct (issue f v); reflexivity.
Qed.

Lemma NoDup_fields_of_issues : NoDup (map fst (issues v)).
Proof.
  rewrite fields_of_issues. apply NoDup_filter, NoDup_all_fields.
Qed.

(** The fields the resolver reports are those that miss their constraint. *)
Lemma reported_iff_violated (f : Field.t) :
  In f (map fst (issues v)) <-> ~ meets_constraint f v.
Proof.
  rewrite <- issue_None_iff, in_map_iff. split.
  - intros [[g m] [Hg Hi]]. simpl in Hg. subst g.
    apply In_issues in Hi. congruence.
  - intros Hn. destruct (issue f v) as [m|] eqn:Hi; [| congruence].
    exists (f, m). split; [reflexivity | now apply In_issues].
Qed.

(** The resolver answers with the data when no field raises an issue, and
    with all the issues otherwise. *)
Lemma zodResolver_cases :
  (issues v = [] /\ exists d, zodResolver v = inr d) \/
  (issues v <> [] /\ zodResolver v = inl (issues v)).
Proof.
  unfold zodResolver.
  repeat match goal with
  | |- context [match ?x with inl _ => _ | inr _ => _ end] =>
      let H := fresh "H" in
      destruct x eqn:H;
      [ right; split; [| reflexivity];
        match type of H with
        | parse_number (formSchema.number ?n) _ = inl ?m =>
            assert (Hi : In (Field.Number n, m) (issues v))
              by (apply In_issues;
                  cbv [issue FormValues.get_number FormValues.get_enum];
                  rewrite H; reflexivity)
        | parse_enum (formSchema.enum ?e) _ = inl ?m =>
            assert (Hi : In (Field.Enum e, m) (issues v))
              by (apply In_issues;
                  cbv [issue FormValues.get_number FormValues.get_enum];
                  rewrite H; reflexivity)
        end;
        intros Hnil; rewrite Hnil in Hi; exact Hi
      | ]
  end.
  left. split; [| eexists; reflexivity].
  cbv [issues Field.all issue FormValues.get_number FormValues.get_enum flat_map].
  repeat match goal with H : _ = inr _ |- _ => rewrite H; clear H end.
  reflexivity.
Qed.

Lemma zodResolver_reports (f : Field.t) (m : string) :
  issue f v = Some m ->
  zodResolver v = inl (issues v) /\ In (f, m) (issues v).
Proof.
  intros H. apply In_issues in H.
  destruct zodResolver_cases as [[Hnil _]|[_ Hres]].
  - rewrite Hnil in H. contradiction.
  - now split.
Qed.

(** The data the resolver hands over is the content of the form. *)
Lemma zodResolver_data (d : FormData.t) :
  zodResolver v = inr d -> v = values_of d.
Proof.
  unfold zodResolver. intros H.
  repeat match type of H with
  | context [match ?x with inl _ => _ | inr _ => _ end] =>
      let E := fresh "E" in
      destruct x eqn:E; [discriminate H |];
      first [apply parse_number_inr in E | apply parse_enum_inr in E]
  end.
  injection H as <-. destruct v. cbn in *. subst. reflexivity.
Qed.

End Resolver.

(** X7. The request built from data that passed the resolver carries the
    numeric fields as they are and the selects as their integer codes:
    gender 1 or 2, cholesterol and glucose 1 to 3, the three habits 0 or
    1; no field is [NaN]. *)
Lemma requestData_of_valid (v : FormValues.t) (d : FormData.t) :
  zodResolver v = inr d ->
  let r := requestData d in
  RequestData.age r = Some (FormData.age d) /\
  RequestData.height r = Some (FormData.height d) /\
  RequestData.weight r = Some (FormData.weight d) /\
  RequestData.ap_hi r = Some (FormData.ap_hi d) /\
  RequestData.ap_lo r = Some (FormData.ap_lo d) /\
  In (RequestData.gender r) [Some 1; Some 2] /\
  In (RequestData.cholesterol r) [Some 1; Some 2; Some 3] /\
  In (RequestData.gluc r) [Some 1; Some 2; Some 3] /\
  In (RequestData.smoke r) [Some 0; Some 1] /\
  In (RequestData.alco r) [Some 0; Some 1] /\
  In (RequestData.active r) [Some 0; Some 1].
Proof.
  intros Hd r. subst r.
  assert (Hall : forall f, meets_constraint f v).
  { intros f. apply issue_None_iff.
    destruct (zodResolver_cases v) as [[Hnil _]|[_ Hres]]; [| congruence].
    destruct (issue f v) as [m|] eqn:Hi; [| reflexivity].
    apply In_issues in Hi. rewrite Hnil in Hi. contradiction. }
  apply zodResolver_data in Hd. subst v.
  unfold requestData; cbn [RequestData.age RequestData.height
    RequestData.weight RequestData.ap_hi RequestData.ap_lo RequestData.gender
    RequestData.cholesterol RequestData.gluc RequestData.smoke
    RequestData.alco RequestData.active].
  rewrite !parseInt_Number_toString.
  repeat (split; [reflexivity |]).
  pose proof (Hall (Field.Enum Field.gender)) as [? [[= <-] Hg]].
  pose proof (Hall (Field.Enum Field.cholesterol)) as [? [[= <-] Hc]].
  pose proof (Hall (Field.Enum Field.gluc)) as [? [[= <-] Hl]].
  pose proof (Hall (Field.Enum Field.smoke)) as [? [[= <-] Hs]].
  pose proof (Hall (Field.Enum Field.alco)) as [? [[= <-] Ha]].
  pose proof (Hall (Field.Enum Field.active)) as [? [[= <-] Hp]].
  clear Hall.
  repeat split;
    match goal with
    | H : In ?x _ |- In (parseInt ?x) _ =>
        simpl in H; repeat destruct H as [H|H]; try contradiction;
        rewrite <- H; simpl; tauto
    end.
Qed.

Lemma requestData_of_valid_witness :
  zodResolver scenario_values = inr scenario_data /\
  RequestData.age (requestData scenario_data) = Some 9125 /\
  In (RequestData.gender (requestData scenario_data)) [Some 1; Some 2].
Proof.
  destruct (requestData_of_valid scenario_values scenario_data eq_refl)
    as [Ha [_ [_ [_ [_ [Hg _]]]]]].
  split; [reflexivity | split; [exact Ha | exact Hg]].
Defined.

(** C7. For every content of the form, the resolver rejects it if and
    only if some field violates its range or enumeration constraint; the
    field errors it then reports name exactly the violating fields, each
    once, all of them together; and what it accepts it hands over
    unchanged. *)
Theorem validate_reports_exactly_the_violations (v : FormValues.t) :
  ((exists field_errors, zodResolver v = inl field_errors)
   <-> (exists f, ~ meets_constraint f v)) /\
  match zodResolver v with
  | inl field_errors =>
      NoDup (map fst field_errors) /\
      (forall f, In f (map fst field_errors) <-> ~ meets_constraint f v)
  | inr data =>
      (forall f, meets_constraint f v) /\ v = values_of data
  end.
Proof.
  destruct (zodResolver_cases v) as [[Hnil [d Hd]]|[Hne Hres]].
  - assert (Hall : forall f, meets_constraint f v).
    { intros f. apply issue_None_iff.
      destruct (issue f v) as [m|] eqn:Hi; [| reflexivity].
      apply In_issues in Hi. rewrite Hnil in Hi. contradiction. }
    rewrite Hd. split; [split |].
    + intros [e [=]].
    + intros [f Hf]. now destruct (Hf (Hall f)).
    + split; [exact Hall | now apply zodResolver_data].
  - rewrite Hres. split; [split |].
    + intros _. destruct (issues v) as [|[f m] l] eqn:He; [congruence|].
      exists f. apply reported_iff_violated. rewrite He. now left.
    + intros _. now exists (issues v).
    + split; [apply NoDup_fields_of_issues | apply reported_iff_violated].
Qed.

(** C8. The bounds of the numeric fields are inclusive: each endpoint of
    age [1, 50000], height [50, 250], weight [10, 300], systolic pressure
    [70, 250] and diastolic pressure [40, 150] is accepted, and the values
    one below and one above are rejected, with the message of the bound
    they cross. *)
Theorem range_bounds_are_inclusive (v : FormValues.t) :
  let verdict f n :=
    issue (Field.Number f) (FormValues.set_number f (Some n) v) in
  let too_small f := Some (min_message (formSchema.number f)) in
  let too_big f := Some (max_message (formSchema.number f)) in
  (verdict Field.age 1 = None /\ verdict Field.age 50000 = None /\
   verdict Field.age 0 = too_small Field.age /\
   verdict Field.age 50001 = too_big Field.age) /\
  (verdict Field.height 50 = None /\ verdict Field.height 250 = None /\
   verdict Field.height 49 = too_small Field.height /\
   verdict Field.height 251 = too_big Field.height) /\
  (verdict Field.weight 10 = None /\ verdict Field.weight 300 = None /\
   verdict Field.weight 9 = too_small Field.weight /\
   verdict Field.weight 301 = too_big Field.weight) /\
  (verdict Field.ap_hi 70 = None /\ verdict Field.ap_hi 250 = None /\
   verdict Field.ap_hi 69 = too_small Field.ap_hi /\
   verdict Field.ap_hi 251 = too_big Field.ap_hi) /\
  (verdict Field.ap_lo 40 = None /\ verdict Field.ap_lo 150 = None /\
   verdict Field.ap_lo 39 = too_small Field.ap_lo /\
   verdict Field.ap_lo 151 = too_big Field.ap_lo) /\
  (* on the scenario's form, where every other field is valid *)
  (forall f,
     let submit n := zodResolver (FormValues.set_number f (Some n) scenario_values) in
     let lo := min (formSchema.number f) in
     let hi := max (formSchema.number f) in
     (exists d, submit lo = inr d) /\ (exists d, submit hi = inr d) /\
     submit (lo - 1) = inl [(Field.Number f, min_message (formSchema.number f))] /\
     submit (hi + 1) = inl [(Field.Number f, max_message (formSchema.number f))]).
Proof.
  intros verdict too_small too_big. subst verdict too_small too_big. cbv beta.
  repeat match goal with |- _ /\ _ => split end;
    try (rewrite issue_number_set; reflexivity).
  intros []; cbv zeta; repeat split; try (eexists; reflexivity).
Qed.

(** C10, as the code has it.  A change event whose text is empty or not
    numeric ([parseInt] gives [NaN]) stores 0 in the field, and the field
    is then rejected by its lower bound, with that bound's message.  A
    numeric field that never received a change event holds [undefined]
    instead and is rejected with zod's ["Required"]. *)
Theorem emptied_number_fails_its_lower_bound
    (f : Field.number) (text : string) (v : FormValues.t) :
  parseInt text = None ->
  FormValues.get_number f (onChange f text v) = Some 0 /\
  issue (Field.Number f) (onChange f text v)
  = Some (min_message (formSchema.number f)) /\
  zodResolver (onChange f text v) = inl (issues (onChange f text v)) /\
  In (Field.Number f, min_message (formSchema.number f))
     (issues (onChange f text v)) /\
  (forall v', FormValues.get_number f v' = None ->
              issue (Field.Number f) v' = Some "Required").
Proof.
  intros Hnan.
  assert (Hi : issue (Field.Number f) (onChange f text v)
               = Some (min_message (formSchema.number f))).
  { unfold onChange. rewrite issue_number_set, Hnan. destruct f; reflexivity. }
  split; [| split; [exact Hi | split; [| split]]].
  - unfold onChange. now rewrite get_set_number, Hnan.
  - apply (zodResolver_reports _ _ _ Hi).
  - apply (zodResolver_reports _ _ _ Hi).
  - intros v' Hv. unfold issue. now rewrite Hv.
Qed.

Lemma emptied_number_fails_its_lower_bound_witness :
  parseInt "" = None /\
  parseInt "abc" = None /\
  FormValues.get_number Field.age (onChange Field.age "" scenario_values) = Some 0 /\
  issue (Field.Number Field.age) (onChange Field.age "" scenario_values)
  = Some "Age must be at least 1 day" /\
  issue (Field.Number Field.ap_lo) (onChange Field.ap_lo "abc" scenario_values)
  = Some "Diastolic pressure must be at least 40".
Proof.
  split; [reflexivity | split; [reflexivity |]].
  destruct (emptied_number_fails_its_lower_bound Field.age "" scenario_values eq_refl)
    as [H0 [H1 _]].
  destruct (emptied_number_fails_its_lower_bound Field.ap_lo "abc" scenario_values eq_refl)
    as [_ [H2 _]].
  split; [exact H0 | split; [exact H1 | exact H2]].
Defined.

(** C10, as stated, fails on the form as first rendered: a numeric field
    the user left empty was never coerced, holds [undefined], and is
    rejected with ["Required"], not with the message of its lower bound. *)
Lemma untouched_number_is_required :
  FormValues.age (values (initial None)) = None /\
  zodResolver (values (initial None))
  = inl [ (Field.Number Field.age, "Required");
          (Field.Number Field.height, "Required");
          (Field.Number Field.weight, "Required");
          (Field.Number Field.ap_hi, "Required");
          (Field.Number Field.ap_lo, "Required") ] /\
  String.eqb "Required" (min_message (formSchema.number Field.age)) = false.
Proof. repeat split. Qed.

(** ** The session history *)

Lemma firstn_app_firstn {A} (n : nat) (a b : list A) :
  firstn n (a ++ firstn n b) = firstn n (a ++ b).
Proof.
  rewrite !firstn_app, firstn_firstn. do 2 f_equal. lia.
Qed.

Lemma NoDup_firstn {A} (n : nat) (l : list A) :
  NoDup l -> NoDup (firstn n l).
Proof.
  intros H. rewrite <- (firstn_skipn n l) in H.
  now apply NoDup_app_remove_r in H.
Qed.

Lemma NoDup_map_injective {A B} (f : A -> B) (l : list A) :
  (forall x y, f x = f y -> x = y) -> NoDup l -> NoDup (map f l).
Proof.
  intros Hinj. induction 1 as [|x l Hx Hl IH]; simpl; constructor.
  - rewrite in_map_iff. intros [y [Hy Hin]]. apply Hinj in Hy. now subst.
  - exact IH.
Qed.

Lemma loadHistory_Stringified (log : list HistoryEntry) (w : World) :
  cardio_history w = Some (Stringified log) ->
  loadHistory w = (inr tt, with_history log w).
Proof.
  intros H. unfold loadHistory, bind, getItem, read. now rewrite H.
Qed.

(** On a log that parses, [append] writes the new entry in front of it,
    cut to ten, and raises the event. *)
Lemma append_parsed (clock : Clock) (data : FormData.t) (result : object)
    (log : list HistoryEntry) (w : World) :
  or_else (cardio_history w) (Stringified []) = Stringified log ->
  append clock data result w
  = (inr tt, appended (firstn 10 (newEntry clock data result :: log)) w).
Proof.
  intros H. unfold append, bind, getItem, read. rewrite H.
  unfold JSON_parse, ret, setItem, modify, JSON_stringify,
    dispatchEvent_storage, handleStorageChange, appended.
  cbv beta iota.
  match goal with
  | |- context [listening (with_cardio_history ?t w)] =>
      change (listening (with_cardio_history t w)) with (listening w)
  end.
  destruct (listening w); [| reflexivity].
  rewrite (loadHistory_Stringified (firstn 10 (newEntry clock data result :: log)))
    by reflexivity.
  reflexivity.
Qed.

(** On a text that does not parse, [append] throws before it writes. *)
Lemma append_unparsable (clock : Clock) (data : FormData.t) (result : object)
    (text complaint : string) (w : World) :
  or_else (cardio_history w) (Stringified []) = Malformed text complaint ->
  append clock data result w = (inl (Error complaint), w).
Proof.
  intros H. unfold append, bind, getItem, read. now rewrite H.
Qed.

Lemma stored_log_appended (log : list HistoryEntry) (w : World) :
  or_else (cardio_history (appended log w)) (Stringified []) = Stringified log.
Proof. unfold appended. destruct (listening w); reflexivity. Qed.

(** A run of [append]s over a log that parses never throws and leaves the
    new entries, newest first, in front of the old ones, cut to ten. *)
Lemma appends_parsed (calls : list Call) :
  forall (log : list HistoryEntry) (w : World),
    or_else (cardio_history w) (Stringified []) = Stringified log ->
    (List.length log <= 10)%nat ->
    exists w',
      appends calls w = (inr tt, w') /\
      or_else (cardio_history w') (Stringified [])
      = Stringified (firstn 10 (rev (map entry_of calls) ++ log)).
Proof.
  induction calls as [|[[clock data] result] rest IH]; intros log w Hw Hlen.
  - exists w. split; [reflexivity |]. rewrite Hw. f_equal. symmetry.
    apply firstn_all2. exact Hlen.
  - destruct (IH (firstn 10 (newEntry clock data result :: log))
                (appended (firstn 10 (newEntry clock data result :: log)) w))
      as [w' [Hrun Hlog]].
    + apply stored_log_appended.
    + apply firstn_le_length.
    + exists w'. split.
      * simpl. unfold bind. rewrite (append_parsed _ _ _ log) by assumption.
        exact Hrun.
      * rewrite Hlog, firstn_app_firstn. simpl map. simpl rev.
        now rewrite <- app_assoc.
Qed.

Lemma empty_storage_log (w : World) :
  empty_storage w ->
  or_else (cardio_history w) (Stringified []) = Stringified [].
Proof. intros [H|[c H]]; rewrite H; reflexivity. Qed.

Lemma or_else_nonempty (stored : option Text) (e : HistoryEntry)
    (log : list HistoryEntry) :
  or_else stored (Stringified []) = Stringified (e :: log) ->
  stored = Some (Stringified (e :: log)).
Proof.
  destruct stored as [[l|text c]|]; simpl.
  - now intros [= ->].
  - destruct (negb (text =? "")%string); discriminate.
  - discriminate.
Qed.

Lemma stored_log_or_else (w : World) (log : list HistoryEntry) :
  or_else (cardio_history w) (Stringified []) = Stringified log ->
  stored_log w = log.
Proof. unfold stored_log. now intros ->. Qed.

(** From an empty log, a run of [append]s never throws and leaves the
    first ten of the entries taken newest first. *)
Lemma appends_from_empty_log (calls : list Call) (w : World) :
  empty_log w ->
  exists w',
    appends calls w = (inr tt, w') /\
    or_else (cardio_history w') (Stringified [])
    = Stringified (firstn 10 (rev (map entry_of calls))).
Proof.
  intros Hempty.
  destruct (appends_parsed calls [] w Hempty) as [w' [Hrun Hlog]];
    [simpl; lia |].
  rewrite app_nil_r in Hlog. now exists w'.
Qed.

(** C6. From an empty log, any run of [append]s succeeds and leaves in the
    storage the latest entries, newest first, never more than ten; after
    eleven calls the log is exactly the last ten entries, newest first:
    the one dropped is the first appended, the oldest. *)
Theorem appends_keep_the_last_ten (calls : list Call) (w : World) :
  empty_log w ->
  exists w',
    appends calls w = (inr tt, w') /\
    stored_log w' = firstn 10 (rev (map entry_of calls)) /\
    (List.length (stored_log w') <= 10)%nat /\
    (List.length calls = 11%nat ->
     cardio_history w' = Some (Stringified (rev (map entry_of (tl calls)))) /\
     List.length (stored_log w') = 10%nat /\
     hd_error (stored_log w') = option_map entry_of (hd_error (rev calls))).
Proof.
  intros Hempty.
  destruct (appends_from_empty_log calls w Hempty) as [w' [Hrun Hlog]].
  exists w'. split; [exact Hrun |].
  rewrite (stored_log_or_else _ _ Hlog).
  split; [reflexivity | split; [apply firstn_le_length |]].
  intros Hlen.
  do 12 (destruct calls as [|? calls]; try discriminate Hlen).
  cbn [tl]. split; [| split; reflexivity].
  cbn [map rev app firstn] in Hlog |- *.
  now apply or_else_nonempty in Hlog.
Qed.

Lemma appends_keep_the_last_ten_witness :
  empty_log (initial None) /\
  exists w',
    appends eleven_calls (initial None) = (inr tt, w') /\
    map id (stored_log w') = ["11"; "10"; "9"; "8"; "7"; "6"; "5"; "4"; "3"; "2"].
Proof.
  split; [reflexivity |].
  destruct (appends_keep_the_last_ten eleven_calls (initial None) eq_refl)
    as [w' [Hrun [Hlog _]]].
  exists w'. split; [exact Hrun |]. rewrite Hlog. reflexivity.
Defined.

(** C4, as the code has it.  The id of an entry is the decimal string of
    the clock reading at its [append]; from an empty log, the ids in the
    stored log are pairwise distinct whenever the clock readings of the
    calls are. *)
Theorem distinct_clock_readings_give_distinct_ids
    (calls : list Call) (w : World) :
  empty_log w ->
  NoDup (map clock_of calls) ->
  exists w',
    appends calls w = (inr tt, w') /\
    map id (stored_log w')
    = firstn 10 (rev (map (fun c => Number_toString (clock_of c)) calls)) /\
    NoDup (map id (stored_log w')).
Proof.
  intros Hempty Hclock.
  destruct (appends_from_empty_log calls w Hempty) as [w' [Hrun Hlog]].
  apply stored_log_or_else in Hlog.
  exists w'. split; [exact Hrun |].
  assert (Hids : map id (stored_log w')
                 = firstn 10 (rev (map (fun c => Number_toString (clock_of c)) calls))).
  { rewrite Hlog, <- firstn_map, map_rev, map_map. do 2 f_equal.
    apply map_ext. now intros [[clock data] result]. }
  split; [exact Hids |].
  rewrite Hids. apply NoDup_firstn, NoDup_rev.
  rewrite <- (map_map clock_of Number_toString).
  apply NoDup_map_injective; [apply Number_toString_inj | exact Hclock].
Qed.

Lemma distinct_clock_readings_give_distinct_ids_witness :
  empty_log (initial None) /\
  NoDup (map clock_of eleven_calls) /\
  exists w',
    appends eleven_calls (initial None) = (inr tt, w') /\
    NoDup (map id (stored_log w')).
Proof.
  assert (Hclock : NoDup (map clock_of eleven_calls)).
  { simpl.
    repeat (constructor;
            [simpl; intros H; repeat destruct H as [H|H];
             try discriminate; contradiction |]).
    constructor. }
  split; [reflexivity | split; [exact Hclock |]].
  destruct (distinct_clock_readings_give_distinct_ids eleven_calls
              (initial None) eq_refl Hclock)
    as [w' [Hrun [_ Hnodup]]].
  exists w'. split; [exact Hrun | exact Hnodup].
Defined.

(** C4, as stated, fails when two entries are appended at one clock
    reading: both get the same id. *)
Lemma same_clock_reading_same_id :
  let call := (scenario_clock, scenario_data, scenario_result) in
  map id (stored_log (snd (appends [call; call] (initial None))))
  = ["1700000000000"; "1700000000000"].
Proof. reflexivity. Qed.

(** ** Submission *)

Lemma settled_rejected (clock : Clock) (data : FormData.t) (reason : Thrown)
    (w : World) :
  onSubmit_settled clock data (Rejected reason) w = failed reason w.
Proof. reflexivity. Qed.

Lemma settled_not_ok (clock : Clock) (data : FormData.t) (r : Response)
    (w : World) :
  ok r = false ->
  onSubmit_settled clock data (Fulfilled r) w
  = failed (Error ("HTTP error! status: " ++ Number_toString (status r))) w.
Proof.
  intros H. unfold onSubmit_settled, try_catch_finally, try_block, bind, ret.
  rewrite H. reflexivity.
Qed.

Lemma settled_bad_body (clock : Clock) (data : FormData.t) (r : Response)
    (complaint : string) (w : World) :
  ok r = true ->
  body r = BadBody complaint ->
  onSubmit_settled clock data (Fulfilled r) w = failed (Error complaint) w.
Proof.
  intros H Hb. unfold onSubmit_settled, try_catch_finally, try_block, bind, ret.
  rewrite H, Hb. reflexivity.
Qed.

Lemma settled_appended (clock : Clock) (data : FormData.t) (r : Response)
    (result : object) (log : list HistoryEntry) (w : World) :
  ok r = true ->
  body r = JSONBody result ->
  or_else (cardio_history w) (Stringified []) = Stringified log ->
  onSubmit_settled clock data (Fulfilled r) w
  = let w1 := appended (firstn 10 (newEntry clock data result :: log))
                (with_prediction (Some result) w) in
    with_isLoading false (with_toasts (toasts w1 ++ [success_toast result]) w1).
Proof.
  intros H Hb Hlog.
  unfold onSubmit_settled, try_catch_finally, try_block, bind, ret.
  rewrite H, Hb. cbn [negb]. unfold setPrediction, modify.
  rewrite (append_parsed clock data result log) by exact Hlog.
  reflexivity.
Qed.

Lemma settled_unparsable (clock : Clock) (data : FormData.t) (r : Response)
    (result : object) (text complaint : string) (w : World) :
  ok r = true ->
  body r = JSONBody result ->
  or_else (cardio_history w) (Stringified []) = Malformed text complaint ->
  onSubmit_settled clock data (Fulfilled r) w
  = failed (Error complaint) (with_prediction (Some result) w).
Proof.
  intros H Hb Hlog.
  unfold onSubmit_settled, try_catch_finally, try_block, bind, ret.
  rewrite H, Hb. cbn [negb]. unfold setPrediction, modify.
  rewrite (append_unparsable clock data result text complaint) by exact Hlog.
  reflexivity.
Qed.

(** C5. When the predictor answers a valid submission with a non-success
    status, the stored history and the history panel are as before, the
    displayed result is as before, the in-flight flag, raised while the
    request was pending, is false again, and one error notification,
    carrying the status, has been emitted. *)
Theorem non_success_status_leaves_state_untouched
    (predictor : RequestData.t -> Settled) (clock : Clock)
    (data : FormData.t) (response : Response) (w : World) :
  zodResolver (values w) = inr data ->
  predictor (requestData data) = Fulfilled response ->
  ok response = false ->
  let w' := handleSubmit predictor clock w in
  cardio_history w' = cardio_history w /\
  history w' = history w /\
  prediction w' = prediction w /\
  render_result w' = render_result w /\
  isLoading (onSubmit_pending data w) = true /\
  isLoading w' = false /\
  toasts w'
  = (toasts w
     ++ [{| title := "Error";
            description :=
              "HTTP error! status: " ++ Number_toString (status response);
            variant := Some "destructive" |}])%list.
Proof.
  intros Hvalid Hanswer Hok w'. subst w'.
  unfold handleSubmit. rewrite Hvalid. unfold onSubmit.
  rewrite Hanswer, settled_not_ok by exact Hok.
  repeat split.
Qed.

Lemma non_success_status_leaves_state_untouched_witness :
  let w' := handleSubmit failing_predictor scenario_clock scenario_world in
  zodResolver (values scenario_world) = inr scenario_data /\
  cardio_history w' = None /\
  isLoading w' = false /\
  prediction w' = None /\
  toasts w'
  = [{| title := "Error"; description := "HTTP error! status: 500";
        variant := Some "destructive" |}].
Proof.
  destruct (non_success_status_leaves_state_untouched
              failing_predictor scenario_clock scenario_data
              {| status := 500;
                 body := BadBody "Unexpected token I in JSON at position 0" |}
              scenario_world eq_refl eq_refl eq_refl)
    as [Hs [_ [Hp [_ [_ [Hl Ht]]]]]].
  split; [reflexivity |].
  split; [exact Hs | split; [exact Hl | split; [exact Hp | exact Ht]]].
Defined.

(** C9. When a field of the form violates its constraint, submitting
    calls neither the predictor nor the history: no request is issued, the
    storage, the history panel, the result, the toasts and the in-flight
    flag are as before, and the form shows the field errors, among them
    the one of the violating field. *)
Theorem invalid_input_is_never_submitted
    (predictor : RequestData.t -> Settled) (clock : Clock)
    (f : Field.t) (m : string) (w : World) :
  issue f (values w) = Some m ->
  let w' := handleSubmit predictor clock w in
  requests w' = requests w /\
  cardio_history w' = cardio_history w /\
  history w' = history w /\
  prediction w' = prediction w /\
  toasts w' = toasts w /\
  isLoading w' = isLoading w /\
  errors w' = issues (values w) /\
  In (f, m) (errors w').
Proof.
  intros Hissue w'. subst w'.
  destruct (zodResolver_reports (values w) f m Hissue) as [Hres Hin].
  unfold handleSubmit. rewrite Hres. repeat split. exact Hin.
Qed.

Lemma invalid_input_is_never_submitted_witness :
  let w := change Field.ap_hi "300" scenario_world in
  let w' := handleSubmit stub_predictor scenario_clock w in
  FormValues.ap_hi (values w) = Some 300 /\
  requests w' = [] /\
  cardio_history w' = None /\
  errors w' = [(Field.Number Field.ap_hi, "Systolic pressure seems too high")].
Proof.
  destruct (invalid_input_is_never_submitted stub_predictor scenario_clock
              (Field.Number Field.ap_hi) "Systolic pressure seems too high"
              (change Field.ap_hi "300" scenario_world) eq_refl)
    as [Hr [Hs [_ [_ [_ [_ [He _]]]]]]].
  split; [reflexivity |].
  split; [exact Hr | split; [exact Hs | exact He]].
Defined.

(** Whatever the predictor answers, an answer with no property
    [confidence] is shown with a confidence that is not a number. *)
Lemma result_card_without_confidence (result : object) :
  get result "confidence" = None ->
  confidence_text (PredictionResult result) = "Confidence: NaN%".
Proof.
  intros H. unfold PredictionResult. rewrite H. reflexivity.
Qed.

(** C1, on the code.  In scenario 1 the toast reads "Low (82% confidence)"
    and the storage gains the one entry, which the history panel shows as
    "Low Risk (82%)"; but the result card, which reads the property
    [confidence] of an answer that carries [probability], shows
    "Low Risk" with "Confidence: NaN%". *)
Theorem scenario_1_result_card_shows_NaN :
  let w' := handleSubmit stub_predictor scenario_clock scenario_world in
  render_result w'
  = Some {| riskColor := "text-blue-500";
            riskLevel_text := "Low Risk";
            confidence_text := "Confidence: NaN%" |} /\
  toasts w'
  = [{| title := "Prediction Complete";
        description := "Risk level: Low (82% confidence)";
        variant := None |}] /\
  cardio_history scenario_world = None /\
  cardio_history w'
  = Some (Stringified [newEntry scenario_clock scenario_data scenario_result]) /\
  render_PredictionHistory w'
  = Cards 1 [("1700000000000", ("default", "Low Risk (82%)"))] /\
  requests w'
  = [{| RequestData.age := Some 9125; RequestData.gender := Some 1;
        RequestData.height := Some 170; RequestData.weight := Some 70;
        RequestData.ap_hi := Some 120; RequestData.ap_lo := Some 80;
        RequestData.cholesterol := Some 1; RequestData.gluc := Some 1;
        RequestData.smoke := Some 0; RequestData.alco := Some 0;
        RequestData.active := Some 1 |}].
Proof. repeat split. Qed.

(** C2, as the code has it.  For a valid submission that the predictor
    answers with a result: where the key is absent or holds the empty
    string, the log is taken as empty, the entry is stored and the only
    notification is the success one, and [loadHistory] changes nothing;
    where the key holds a non-empty text that does not parse,
    [loadHistory] throws, and the submission, after the result is set,
    stops at the failed parse: the storage is left as it was and the
    notification emitted is an error carrying the parser's message. *)
Theorem storage_errors_on_submission
    (predictor : RequestData.t -> Settled) (clock : Clock)
    (data : FormData.t) (response : Response) (result : object) (w : World) :
  zodResolver (values w) = inr data ->
  predictor (requestData data) = Fulfilled response ->
  ok response = true ->
  body response = JSONBody result ->
  let w' := handleSubmit predictor clock w in
  (empty_storage w ->
   loadHistory w = (inr tt, w) /\
   cardio_history w' = Some (Stringified [newEntry clock data result]) /\
   toasts w' = (toasts w ++ [success_toast result])%list /\
   prediction w' = Some result /\
   isLoading w' = false) /\
  (forall text complaint,
     cardio_history w = Some (Malformed text complaint) ->
     truthy (Malformed text complaint) = true ->
     loadHistory w = (inl (Error complaint), w) /\
     cardio_history w' = cardio_history w /\
     history w' = history w /\
     toasts w' = (toasts w ++ [error_toast (Error complaint)])%list /\
     prediction w' = Some result /\
     isLoading w' = false).
Proof.
  intros Hvalid Hanswer Hok Hbody w'. subst w'.
  unfold handleSubmit. rewrite Hvalid. unfold onSubmit. rewrite Hanswer.
  split.
  - intros Hempty. split.
    + unfold loadHistory, bind, getItem, read.
      destruct Hempty as [H|[c H]]; rewrite H; reflexivity.
    + rewrite (settled_appended clock data response result [])
        by (try assumption; apply (empty_storage_log w Hempty)).
      cbv zeta. unfold appended.
      destruct (listening _); repeat split.
  - intros text complaint Hstored Htruthy. split.
    + unfold loadHistory, bind, getItem, read. rewrite Hstored, Htruthy.
      reflexivity.
    + rewrite (settled_unparsable clock data response result text complaint)
        by (try assumption; cbn; rewrite Hstored; cbn [or_else];
            now rewrite Htruthy).
      repeat split.
Qed.

Lemma storage_errors_on_submission_witness :
  let fresh := with_form scenario_values [] (initial None) in
  let broken := with_form scenario_values [] (initial (Some corrupted)) in
  zodResolver scenario_values = inr scenario_data /\
  (empty_storage fresh /\
   toasts (handleSubmit stub_predictor scenario_clock fresh)
   = [success_toast scenario_result]) /\
  (truthy corrupted = true /\
   cardio_history (handleSubmit stub_predictor scenario_clock broken)
   = Some corrupted /\
   toasts (handleSubmit stub_predictor scenario_clock broken)
   = [error_toast (Error "Unexpected token o in JSON at position 1")]).
Proof.
  split; [reflexivity | split].
  - destruct (storage_errors_on_submission stub_predictor scenario_clock
                scenario_data
                {| status := 200; body := JSONBody scenario_result |}
                scenario_result
                (with_form scenario_values [] (initial None))
                eq_refl eq_refl eq_refl eq_refl) as [Hfresh _].
    destruct (Hfresh (or_introl eq_refl)) as [_ [_ [Ht _]]].
    split; [left; reflexivity | exact Ht].
  - destruct (storage_errors_on_submission stub_predictor scenario_clock
                scenario_data
                {| status := 200; body := JSONBody scenario_result |}
                scenario_result
                (with_form scenario_values [] (initial (Some corrupted)))
                eq_refl eq_refl eq_refl eq_refl) as [_ Hbroken].
    destruct (Hbroken "{oops" "Unexpected token o in JSON at position 1"
                eq_refl eq_refl) as [_ [Hs [_ [Ht _]]]].
    split; [reflexivity | split; [exact Hs | exact Ht]].
Defined.

(** C2, as stated, fails on a key that holds text that is not JSON: a
    valid submission, answered with a result, ends in a user-visible error
    toast carrying the parser's message, and the entry is not stored. *)
Lemma unparsable_history_surfaces_an_error :
  let w := with_form scenario_values [] (initial (Some corrupted)) in
  let w' := handleSubmit stub_predictor scenario_clock w in
  toasts w'
  = [{| title := "Error";
        description := "Unexpected token o in JSON at position 1";
        variant := Some "destructive" |}] /\
  cardio_history w' = Some corrupted /\
  stored_log w' = [] /\
  prediction w' = Some scenario_result.
Proof. repeat split. Qed.

(** C3, as the code has it.  [loadHistory], run when the history panel
    mounts, loads the persisted log when the stored text parses, and
    leaves the log empty when the key is absent or holds the empty string;
    on any other text that does not parse, [JSON.parse] throws and nothing
    catches it: the effect stops before the listener is registered. *)
Theorem load_at_initialization (stored : option Text) :
  history (initial stored) = [] /\
  mount_PredictionHistory (initial stored)
  = match stored with
    | Some (Stringified log) =>
        (inr tt, with_listening true (with_history log (initial stored)))
    | Some (Malformed text complaint) =>
        if String.eqb text "" then
          (inr tt, with_listening true (initial stored))
        else (inl (Error complaint), initial stored)
    | None => (inr tt, with_listening true (initial stored))
    end.
Proof.
  split; [reflexivity |].
  destruct stored as [[log|text complaint]|]; try reflexivity.
  unfold mount_PredictionHistory, loadHistory, bind, getItem, read.
  cbn [initial cardio_history truthy].
  destruct (String.eqb text ""); reflexivity.
Qed.

(** C3, as stated, fails on a key that holds text that is not JSON:
    mounting the panel throws the parser's error. *)
Lemma unparsable_history_throws_on_load :
  mount_PredictionHistory (initial (Some corrupted))
  = (inl (Error "Unexpected token o in JSON at position 1"),
     initial (Some corrupted)).
Proof. reflexivity. Qed.

(** ** Further properties of submission *)

(** [onSubmit], from the moment the request settles, by what the request
    hands over and what the storage holds. *)
Lemma settled_answer (clock : Clock) (data : FormData.t) (settled : Settled)
    (w : World) :
  onSubmit_settled clock data settled w
  = match answer settled with
    | inl error => failed error w
    | inr result =>
        match or_else (cardio_history w) (Stringified []) with
        | Stringified log =>
            let w1 := appended (firstn 10 (newEntry clock data result :: log))
                        (with_prediction (Some result) w) in
            with_isLoading false
              (with_toasts (toasts w1 ++ [success_toast result]) w1)
        | Malformed _ complaint =>
            failed (Error complaint) (with_prediction (Some result) w)
        end
    end.
Proof.
  destruct settled as [reason|response]; [reflexivity |].
  unfold answer. destruct (ok response) eqn:Hok.
  - destruct (body response) as [result|complaint] eqn:Hbody.
    + destruct (or_else (cardio_history w) (Stringified []))
        as [log|text complaint] eqn:Hlog.
      * now apply settled_appended.
      * now apply settled_unparsable with (text := text).
    + now apply settled_bad_body.
  - now apply settled_not_ok.
Qed.

Lemma handleSubmit_valid (predictor : RequestData.t -> Settled)
    (clock : Clock) (data : FormData.t) (w : World) :
  zodResolver (values w) = inr data ->
  handleSubmit predictor clock w
  = onSubmit_settled clock data (predictor (requestData data))
      (onSubmit_pending data (with_form (values w) [] w)).
Proof. intros H. unfold handleSubmit. now rewrite H. Qed.

(** Projections of a world built by the setters, computed. *)
Ltac world :=
  unfold appended, failed, onSubmit_pending, stored_log;
  cbn [values errors prediction isLoading cardio_history history listening
       toasts requests with_form with_prediction with_isLoading
       with_cardio_history with_history with_listening with_toasts
       with_requests].

(** X1. Whatever the predictor does with a valid submission, [onSubmit]
    issues exactly one request, the one built from the data, emits exactly
    one toast, and leaves the in-flight flag lowered; the submit button is
    disabled and reads "Analyzing Risk..." while the request is pending,
    and is enabled again afterwards; the content of the form is kept and
    the field errors are cleared. *)
Theorem every_submission_ends_with_one_toast
    (predictor : RequestData.t -> Settled) (clock : Clock)
    (data : FormData.t) (w : World) :
  zodResolver (values w) = inr data ->
  let pending := onSubmit_pending data (with_form (values w) [] w) in
  let w' := handleSubmit predictor clock w in
  requests w' = (requests w ++ [requestData data])%list /\
  (exists t, toasts w' = (toasts w ++ [t])%list) /\
  submit_button pending = (true, "Analyzing Risk...") /\
  submit_button w' = (false, "Assess Cardiovascular Risk") /\
  values w' = values w /\
  errors w' = [] /\
  listening w' = listening w.
Proof.
  intros Hvalid pending w'. subst pending w'.
  rewrite (handleSubmit_valid _ _ _ _ Hvalid), settled_answer.
  destruct (answer (predictor (requestData data))) as [error|result].
  - repeat split. now eexists.
  - world.
    destruct (or_else (cardio_history w) (Stringified [])) as [log|text c].
    + cbv zeta. world.
      destruct (listening w) eqn:Hl; world; rewrite ?Hl;
        repeat split; now eexists.
    + repeat split. now eexists.
Qed.

Lemma every_submission_ends_with_one_toast_witness :
  let w' := handleSubmit failing_predictor scenario_clock scenario_world in
  zodResolver (values scenario_world) = inr scenario_data /\
  List.length (requests w') = 1%nat /\
  List.length (toasts w') = 1%nat /\
  submit_button w' = (false, "Assess Cardiovascular Risk").
Proof.
  destruct (every_submission_ends_with_one_toast failing_predictor
              scenario_clock scenario_data scenario_world eq_refl)
    as [Hr [[t Ht] [_ [Hb _]]]].
  split; [reflexivity |].
  split; [rewrite Hr; reflexivity |].
  split; [rewrite Ht; reflexivity | exact Hb].
Defined.

(** X2. When the request of a valid submission fails before it yields a
    result (the network rejects it, the status is not a success, or the
    body is not JSON), the stored history, the history panel and the
    displayed result are left as they were, and the toast is an error
    carrying the message of what was thrown, or the fixed text when what
    was thrown is not an [Error]. *)
Theorem failed_request_leaves_state_untouched
    (predictor : RequestData.t -> Settled) (clock : Clock)
    (data : FormData.t) (error : Thrown) (w : World) :
  zodResolver (values w) = inr data ->
  answer (predictor (requestData data)) = inl error ->
  let w' := handleSubmit predictor clock w in
  cardio_history w' = cardio_history w /\
  history w' = history w /\
  prediction w' = prediction w /\
  render_result w' = render_result w /\
  toasts w'
  = (toasts w
     ++ [{| title := "Error";
            description :=
              match error with
              | Error message => message
              | NotAnError =>
                  "Failed to get prediction. Please check if FastAPI server is running."
              end;
            variant := Some "destructive" |}])%list.
Proof.
  intros Hvalid Hanswer w'. subst w'.
  rewrite (handleSubmit_valid _ _ _ _ Hvalid), settled_answer, Hanswer.
  repeat split.
Qed.

Lemma failed_request_leaves_state_untouched_witness :
  let offline (_ : RequestData.t) := Rejected (Error "Failed to fetch") in
  let garbled (_ : RequestData.t) :=
    Fulfilled {| status := 200; body := BadBody "Unexpected end of JSON input" |} in
  let thrower (_ : RequestData.t) := Rejected NotAnError in
  map description (toasts (handleSubmit offline scenario_clock scenario_world))
  = ["Failed to fetch"] /\
  map description (toasts (handleSubmit garbled scenario_clock scenario_world))
  = ["Unexpected end of JSON input"] /\
  map description (toasts (handleSubmit thrower scenario_clock scenario_world))
  = ["Failed to get prediction. Please check if FastAPI server is running."] /\
  cardio_history (handleSubmit garbled scenario_clock scenario_world) = None.
Proof.
  cbv zeta.
  destruct (failed_request_leaves_state_untouched
              (fun _ => Rejected (Error "Failed to fetch")) scenario_clock
              scenario_data (Error "Failed to fetch") scenario_world
              eq_refl eq_refl) as [_ [_ [_ [_ H1]]]].
  destruct (failed_request_leaves_state_untouched
              (fun _ => Fulfilled {| status := 200;
                                     body := BadBody "Unexpected end of JSON input" |})
              scenario_clock scenario_data
              (Error "Unexpected end of JSON input") scenario_world
              eq_refl eq_refl) as [H2s [_ [_ [_ H2]]]].
  destruct (failed_request_leaves_state_untouched
              (fun _ => Rejected NotAnError) scenario_clock
              scenario_data NotAnError scenario_world
              eq_refl eq_refl) as [_ [_ [_ [_ H3]]]].
  split; [rewrite H1; reflexivity |].
  split; [rewrite H2; reflexivity |].
  split; [rewrite H3; reflexivity | exact H2s].
Defined.

(** X3. When a valid submission is answered with a result and the stored
    text parses, whatever it holds, the storage afterwards holds the new
    entry followed by the first nine entries of the old log: at most ten,
    the older ones in their order, even when more than ten were stored;
    the result is the displayed one, the toast is the success toast, and
    a listening history panel shows the stored log. *)
Theorem successful_submission_prepends_and_truncates
    (predictor : RequestData.t -> Settled) (clock : Clock)
    (data : FormData.t) (result : object) (log : list HistoryEntry)
    (w : World) :
  zodResolver (values w) = inr data ->
  answer (predictor (requestData data)) = inr result ->
  or_else (cardio_history w) (Stringified []) = Stringified log ->
  let w' := handleSubmit predictor clock w in
  cardio_history w'
  = Some (Stringified (newEntry clock data result :: firstn 9 log)) /\
  (List.length (stored_log w') <= 10)%nat /\
  prediction w' = Some result /\
  toasts w' = (toasts w ++ [success_toast result])%list /\
  history w' = (if listening w then stored_log w' else history w).
Proof.
  intros Hvalid Hanswer Hlog w'. subst w'.
  rewrite (handleSubmit_valid _ _ _ _ Hvalid), settled_answer, Hanswer.
  world. rewrite Hlog. cbv zeta. world. rewrite firstn_cons.
  destruct (listening w) eqn:Hl; world; cbn [or_else truthy];
    repeat split; cbn [List.length]; rewrite length_firstn; lia.
Qed.

Lemma successful_submission_prepends_and_truncates_witness :
  let full :=
    with_form scenario_values []
      (initial (Some (Stringified (map entry_of eleven_calls)))) in
  let w' := handleSubmit stub_predictor scenario_clock full in
  List.length (stored_log full) = 11%nat /\
  map id (stored_log w')
  = ["1700000000000"; "1"; "2"; "3"; "4"; "5"; "6"; "7"; "8"; "9"].
Proof.
  cbv zeta. split; [reflexivity |].
  destruct (successful_submission_prepends_and_truncates stub_predictor
              scenario_clock scenario_data scenario_result
              (map entry_of eleven_calls)
              (with_form scenario_values []
                 (initial (Some (Stringified (map entry_of eleven_calls)))))
              eq_refl eq_refl eq_refl) as [Hs _].
  unfold stored_log. rewrite Hs. reflexivity.
Defined.



(** ** The page over a whole session *)

Lemma mounted_at_rest (stored : option Text) :
  readable stored ->
  at_rest (snd (mount_PredictionHistory (initial stored))).
Proof.
  unfold readable, at_rest, in_sync.
  destruct stored as [[log|text complaint]|]; intros H.
  - repeat split. exact H.
  - subst text. repeat split. cbn. lia.
  - repeat split. cbn. lia.
Qed.

Lemma act_at_rest (a : Action) (w : World) :
  at_rest w -> at_rest (act w a).
Proof.
  unfold at_rest, in_sync.
  intros [Hsync [Hlen [Hlisten [Hload Hcount]]]].
  destruct a as [v predictor clock|]; cbn [act].
  - destruct (zodResolver v) as [field_errors|data] eqn:Hv.
    + unfold handleSubmit. cbn [values with_form]. rewrite Hv.
      repeat split; assumption.
    + rewrite (handleSubmit_valid predictor clock data) by exact Hv.
      rewrite settled_answer.
      destruct (answer _) as [error|result].
      * world. fold (stored_log w). repeat split; try assumption.
        rewrite !List.length_app. cbn [List.length]. lia.
      * world.
        destruct (or_else (cardio_history w) (Stringified []))
          as [log|text complaint] eqn:Hlog.
        -- cbv zeta. world. rewrite Hlisten. world. cbn [or_else truthy].
           repeat split; try assumption;
             rewrite ?length_firstn, ?List.length_app; cbn [List.length];
             lia.
        -- world. rewrite Hlog. unfold stored_log in Hsync, Hlen.
           rewrite Hlog in Hsync, Hlen.
           repeat split; try assumption.
           rewrite !List.length_app. cbn [List.length]. lia.
  - unfold clearHistory, bind, removeItem, setHistory, modify. world.
    repeat split; try assumption. cbn. lia.
Qed.

(** X5. Over any content of the storage key the history panel can mount
    on and any series of submissions and clears, between two actions the
    history panel shows exactly the stored log, the stored log holds at
    most ten entries, the in-flight flag is lowered, and as many toasts
    have been emitted as requests issued. *)
Theorem session_stays_in_sync_and_bounded
    (stored : option Text) (actions : list Action) :
  readable stored ->
  at_rest (session stored actions).
Proof.
  intros H. unfold session.
  generalize (mounted_at_rest stored H).
  generalize (snd (mount_PredictionHistory (initial stored))).
  induction actions as [|a rest IH]; intros w Hw; cbn [fold_left].
  - exact Hw.
  - apply IH, act_at_rest, Hw.
Qed.

Lemma session_stays_in_sync_and_bounded_witness :
  readable None /\
  at_rest (session None busy_session) /\
  map id (history (session None (removelast busy_session))) = [] /\
  map id (history (session None busy_session)) = ["1700000000000"] /\
  List.length (requests (session None busy_session)) = 13%nat.
Proof.
  split; [exact I |].
  split; [exact (session_stays_in_sync_and_bounded None busy_session I) |].
  repeat split.
Defined.

(** ** Clearing the history *)

(** X6. [clearHistory] never throws; it removes the storage key and
    empties the history panel, which then shows its placeholder, and it
    touches nothing else; a load after it finds nothing, and the next
    successful submission stores exactly its own entry, also when the key
    held text that did not parse. *)
Theorem clearing_empties_storage_and_panel (w : World) :
  let w1 := snd (clearHistory w) in
  fst (clearHistory w) = inr tt /\
  cardio_history w1 = None /\
  history w1 = [] /\
  render_PredictionHistory w1 = NoHistoryYet /\
  loadHistory w1 = (inr tt, w1) /\
  (values w1, errors w1, prediction w1, isLoading w1, listening w1,
   toasts w1, requests w1)
  = (values w, errors w, prediction w, isLoading w, listening w,
     toasts w, requests w) /\
  (forall predictor clock data result,
     zodResolver (values w) = inr data ->
     answer (predictor (requestData data)) = inr result ->
     cardio_history (handleSubmit predictor clock w1)
     = Some (Stringified [newEntry clock data result])).
Proof.
  cbv zeta. unfold clearHistory, bind, removeItem, setHistory, modify.
  cbn [fst snd].
  repeat match goal with |- _ /\ _ => split end; try reflexivity.
  intros predictor clock data result Hvalid Hanswer.
  rewrite (handleSubmit_valid predictor clock data) by exact Hvalid.
  rewrite settled_answer, Hanswer. world. cbn [or_else].
  cbv zeta. world. destruct (listening w); reflexivity.
Qed.

(** ** Editing the form *)

Lemma get_number_set_other (f g : Field.number) (x : option Z)
    (v : FormValues.t) :
  g <> f ->
  FormValues.get_number g (FormValues.set_number f x v)
  = FormValues.get_number g v.
Proof. destruct f, g; intros H; try reflexivity; now destruct H. Qed.

Lemma get_enum_set_number (f : Field.number) (e : Field.enum) (x : option Z)
    (v : FormValues.t) :
  FormValues.get_enum e (FormValues.set_number f x v)
  = FormValues.get_enum e v.
Proof. destruct f, e; reflexivity. Qed.

Lemma get_number_set_enum (f : Field.enum) (n : Field.number)
    (x : option string) (v : FormValues.t) :
  FormValues.get_number n (FormValues.set_enum f x v)
  = FormValues.get_number n v.
Proof. destruct f, n; reflexivity. Qed.

Lemma get_set_enum (f : Field.enum) (x : option string) (v : FormValues.t) :
  FormValues.get_enum f (FormValues.set_enum f x v) = x.
Proof. destruct f; reflexivity. Qed.

Lemma get_enum_set_other (f g : Field.enum) (x : option string)
    (v : FormValues.t) :
  g <> f ->
  FormValues.get_enum g (FormValues.set_enum f x v)
  = FormValues.get_enum g v.
Proof. destruct f, g; intros H; try reflexivity; now destruct H. Qed.


(** The items a select offers are members of the enumeration of its
    schema. *)
Lemma offered_items_are_members (f : Field.enum) (value : string) :
  member value (SelectItems f) = true ->
  member value (options (formSchema.enum f)) = true.
Proof.
  rewrite !member_In. destruct f; simpl; tauto.
Qed.

Lemma edited_enums_valid (edits : list Edit) :
  forall v,
    (forall f, issue (Field.Enum f) v = None) ->
    forallb offered edits = true ->
    forall f, issue (Field.Enum f) (fold_left edit edits v) = None.
Proof.
  induction edits as [|e rest IH]; intros v Hv Hoffered; [exact Hv |].
  cbn [forallb] in Hoffered. apply andb_prop in Hoffered as [He Hrest].
  cbn [fold_left]. apply IH; [| exact Hrest].
  intros f. destruct e as [g text|g value]; cbn [edit offered] in *.
  - unfold onChange, issue. rewrite get_enum_set_number. apply Hv.
  - unfold onValueChange, issue.
    destruct (Field.eq_dec (Field.Enum f) (Field.Enum g)) as [[= ->]|Hne].
    + rewrite get_set_enum. unfold parse_enum.
      now rewrite (offered_items_are_members g value He).
    + rewrite get_enum_set_other by congruence. apply Hv.
Qed.

(** X10. Whatever the user types into the numeric inputs and whichever
    offered items the user picks in the selects, starting from the form as
    first rendered, every select holds a member of its enumeration: the
    resolver never reports an error on a select, only on numeric
    fields. *)
Theorem selects_never_fail_validation (edits : list Edit) :
  forallb offered edits = true ->
  (forall f, meets_constraint (Field.Enum f) (edited edits)) /\
  (forall f m, In (f, m) (issues (edited edits)) -> exists n, f = Field.Number n).
Proof.
  intros Hoffered.
  assert (H : forall f, issue (Field.Enum f) (edited edits) = None).
  { apply edited_enums_valid; [| exact Hoffered]. now intros []. }
  split.
  - intros f. apply issue_None_iff, H.
  - intros [n|e] m Hin; [now exists n |].
    apply In_issues in Hin. rewrite H in Hin. discriminate.
Qed.

Lemma selects_never_fail_validation_witness :
  let edits :=
    [ Pick Field.gender "2"; Type_in Field.age "0"; Pick Field.gluc "3";
      Type_in Field.ap_hi "300"; Pick Field.smoke "1" ] in
  forallb offered edits = true /\
  meets_constraint (Field.Enum Field.gender) (edited edits) /\
  map fst (issues (edited edits))
  = [ Field.Number Field.age; Field.Number Field.height;
      Field.Number Field.weight; Field.Number Field.ap_hi;
      Field.Number Field.ap_lo ].
Proof.
  cbv zeta. split; [reflexivity |].
  split; [| reflexivity].
  apply (selects_never_fail_validation
           [ Pick Field.gender "2"; Type_in Field.age "0"; Pick Field.gluc "3";
             Type_in Field.ap_hi "300"; Pick Field.smoke "1" ] eq_refl).
Defined.

Lemma edited_number_unset (f : Field.number) (edits : list Edit) :
  forall v,
    FormValues.get_number f (fold_left edit edits v) = None
    <-> FormValues.get_number f v = None /\ typed_into f edits = false.
Proof.
  induction edits as [|e rest IH]; intros v; cbn [fold_left typed_into existsb].
  - tauto.
  - fold (typed_into f rest). rewrite IH.
    destruct e as [g text|g value]; cbn [edit].
    + unfold onChange.
      destruct (Field.eq_dec (Field.Number f) (Field.Number g)) as [[= ->]|Hne].
      * rewrite get_set_number. cbn [orb]. split; intros [H1 H2]; discriminate.
      * rewrite get_number_set_other by congruence. cbn [orb]. tauto.
    + unfold onValueChange. rewrite get_number_set_enum. cbn [orb]. tauto.
Qed.

(** X11. After any series of edits to the form as first rendered, a
    numeric field is reported as "Required" exactly when nothing was ever
    typed into it, and exactly then it holds no value; once something
    was typed, whatever it was, the field holds a number for good. *)
Theorem required_exactly_when_never_typed
    (f : Field.number) (edits : list Edit) :
  (issue (Field.Number f) (edited edits) = Some "Required"
   <-> typed_into f edits = false) /\
  (FormValues.get_number f (edited edits) = None
   <-> typed_into f edits = false).
Proof.
  assert (Hunset : FormValues.get_number f (edited edits) = None
                   <-> typed_into f edits = false).
  { unfold edited. rewrite edited_number_unset.
    split; [tauto | intros H; split; [now destruct f | exact H]]. }
  split; [| exact Hunset].
  rewrite <- Hunset. unfold issue, parse_number.
  destruct (FormValues.get_number f (edited edits)) as [n|]; [| tauto].
  split; [| discriminate].
  destruct (n <? min (formSchema.number f)); [destruct f; discriminate |].
  destruct (n >? max (formSchema.number f)); [destruct f; discriminate |].
  discriminate.
Qed.





(** ** What the cards show *)

Lemma years_checked_sound (fuel : nat) :
  forall a k,
    years_checked fuel a = true ->
    a <= k < a + Z.of_nat fuel ->
    Math_round (float_of_Z k / 365) = RInt ((2 * k + 365) / 730).
Proof.
  induction fuel as [|fuel IH]; intros a k Hchecked Hk; [lia |].
  cbn [years_checked] in Hchecked.
  apply andb_prop in Hchecked as [Ha Hrest].
  destruct (Z.eq_dec k a) as [->|Hne].
  - destruct (Math_round (float_of_Z a / 365)) as [| |n]; try discriminate.
    apply Z.eqb_eq in Ha. now subst n.
  - apply (IH (a + 1)); [exact Hrest | lia].
Qed.

Lemma years_checked_all : years_checked (Z.to_nat 50000) 1 = true.
Proof. vm_compute. reflexivity. Qed.

(** X12. On the card of an entry whose age passed the schema (1 to 50000
    days), the years shown, [Math.round(age / 365)], are the integer
    nearest to the exact quotient: the division in doubles never moves
    the result, which is never [NaN] and lies between 0 and 137. *)
Theorem card_years_round_to_nearest (entry : HistoryEntry) :
  1 <= FormData.age (data entry) <= 50000 ->
  card_years entry = RInt ((2 * FormData.age (data entry) + 365) / 730) /\
  0 <= (2 * FormData.age (data entry) + 365) / 730 <= 137.
Proof.
  intros Hage. split.
  - unfold card_years.
    apply (years_checked_sound (Z.to_nat 50000) 1); [| lia].
    exact years_checked_all.
  - split.
    + apply Z.div_pos; lia.
    + apply Z.lt_succ_r, Z.div_lt_upper_bound; lia.
Qed.

Lemma card_years_round_to_nearest_witness :
  card_years (newEntry scenario_clock scenario_data scenario_result)
  = RInt 25.
Proof.
  destruct (card_years_round_to_nearest
              (newEntry scenario_clock scenario_data scenario_result))
    as [H _]; [change (1 <= 9125 <= 50000); lia |].
  rewrite H. reflexivity.
Defined.

(** X13. On the result card the level, the icon and the interpretation
    always name the same risk, and the colour of the level, of the
    progress bar and of the gauge always belong to the same band: red or
    orange for high risk, green or blue for low risk, the first of each
    pair exactly when the confidence exceeds 70; the label and the gauge
    show the same percentage.  An answer without a [confidence]
    property, as the predictor's are, always gets the second colour of
    its pair and the percentage [NaN]. *)
Theorem result_card_colours_agree (prediction : object) :
  let card := PredictionResult prediction in
  let strong := rounded_gt (confidence prediction) 70 in
  (riskLevel_text card, fst (getRiskIcon prediction),
   snd (interpretation prediction))
  = (if isHighRisk prediction
     then ("High Risk", "AlertTriangle", "High cardiovascular risk detected.")
     else ("Low Risk", "CheckCircle", "Low cardiovascular risk indicated.")) /\
  (riskColor card, getProgressColor prediction, stroke prediction)
  = (match isHighRisk prediction, strong with
     | true, true => ("text-red-600", "bg-red-500", "#dc2626")
     | true, false => ("text-orange-500", "bg-orange-500", "#f97316")
     | false, true => ("text-green-600", "bg-green-500", "#16a34a")
     | false, false => ("text-blue-500", "bg-blue-500", "#2563eb")
     end) /\
  confidence_text card = "Confidence: " ++ gauge_text prediction /\
  (get prediction "confidence" = None ->
   strong = false /\ gauge_text prediction = "NaN%").
Proof.
  cbv zeta.
  unfold PredictionResult, getRiskIcon, interpretation, getProgressColor,
    stroke, gauge_text, confidence, isHighRisk.
  cbn [riskLevel_text riskColor confidence_text].
  split; [| split; [| split]].
  - destruct (strict_equal _ _); reflexivity.
  - destruct (strict_equal _ _), (rounded_gt _ _); reflexivity.
  - reflexivity.
  - intros H. rewrite H. split; reflexivity.
Qed.
